(** * The instance handler of longhorn-manager (package controller)

    A shallow embedding of [InstanceHandler]: the status projection
    [syncStatusWithPod], the reconciliation [ReconcileInstanceState] and the
    helpers they call.  The handler mutates [*spec] and [*status] in place
    and talks to the cluster through its clients; both are modelled by a
    small state monad over a [World] that holds the two structs and the
    list of calls issued so far.  A nil pointer dereference is the only
    way the Go code can panic, and the monad carries that outcome.
    The parameters [spec] and [status] of the Go functions are the two
    pointers into that world, so they are not passed along here.

    Output written through logrus is not modelled. *)

From Stdlib Require Import String List Bool ZArith.
Import ListNotations.
Open Scope string_scope.

(** ** Data of package types and of the Kubernetes API *)

(** Modelled from the spec: package types is not among the sources; the
    handler names the five states below, and the spec lists the same five
    as the values of [CurrentState]. *)
Inductive InstanceState :=
| InstanceStateRunning
| InstanceStateStopped
| InstanceStateError
| InstanceStateStarting
| InstanceStateStopping.

Definition InstanceState_eqb (a b : InstanceState) : bool :=
  match a, b with
  | InstanceStateRunning, InstanceStateRunning
  | InstanceStateStopped, InstanceStateStopped
  | InstanceStateError, InstanceStateError
  | InstanceStateStarting, InstanceStateStarting
  | InstanceStateStopping, InstanceStateStopping => true
  | _, _ => false
  end.

(** The fields of types.InstanceSpec the handler reads or writes. *)
Record InstanceSpec := mkSpec {
  DesireState : InstanceState;
  NodeID : string;
  EngineImage : string
}.

Record InstanceStatus := mkStatus {
  CurrentState : InstanceState;
  Started : bool;
  IP : string;
  CurrentImage : string;
  NodeBootID : string
}.

(** v1.PodPhase; the handler distinguishes Pending, Running and the rest. *)
Inductive PodPhase :=
| PodPending
| PodRunning
| PodSucceeded
| PodFailed
| PodUnknown.

Record ContainerStatus := mkContainerStatus { Ready : bool }.

(** The fields of v1.Pod the handler looks at.  A pod pointer is an
    [option Pod], nil being [None]. *)
Record Pod := mkPod {
  Name : string;
  DeletionTimestamp : option Z;
  Phase : PodPhase;
  ContainerStatuses : list ContainerStatus;
  PodIP : string;
  NodeName : string
}.

Record Node := mkNode { BootID : string }.

(** Errors.  [APIError] stands for whatever a collaborator returns, with
    the answer apierrors.IsNotFound gives on it; the others are the errors
    the handler builds itself with fmt.Errorf. *)
Inductive error :=
| APIError (notFound : bool) (msg : string)
| ErrNotRuntimeObject
| ErrUnknownDesireState (desire : InstanceState)
| ErrNotPinned (podName nodeID : string)
| ErrEmptyRequestPath (ns podName : string).

Definition IsNotFound (err : option error) : bool :=
  match err with
  | Some (APIError true _) => true
  | _ => false
  end.

Definition isNil {A} (p : option A) : bool :=
  match p with None => true | Some _ => false end.

(** [obj interface{}]: either a value that is no runtime.Object, or one
    whose metadata meta.Accessor hands out or refuses. *)
Inductive RuntimeObject :=
| WithName (name : string)
| NoAccessor (err : error).

Inductive Object :=
| NotRuntime
| Runtime (o : RuntimeObject).

(** ** The collaborators *)

Record Request := mkRequest {
  URLPath : string;
  DoRaw : string * option error
}.

Record KubeClient := mkKubeClient {
  Pods_Create : string -> option Pod -> option Pod * option error;
  Pods_Delete : string -> string -> option error;
  Pods_GetLogs : string -> string -> Z -> Request;
  Nodes_Get : string -> option Node * option error
}.

Record InstanceHandler := mkHandler {
  namespace : string;
  kubeClient : KubeClient;
  pLister : string -> string -> option Pod * option error;
  podCreator : Object -> option Pod * option error
}.

Inductive EventType := EventTypeNormal | EventTypeWarning.

Inductive EventReason :=
| EventReasonStart
| EventReasonFailedStarting
| EventReasonStop
| EventReasonFailedStopping.

(** What the handler asks of the outside, in the order it asks. *)
Inductive Call :=
| ListerGet (ns name : string)
| CreatePodSpec (obj : Object)
| PodsCreate (ns : string) (pod : option Pod)
| PodsDelete (ns name : string)
| PodsGetLogs (ns name : string) (tail : Z)
| NodesGet (name : string) (res : option Node * option error)
| Eventf (etype : EventType) (reason : EventReason) (subject : string).

(** ** The monad *)

Record World := mkWorld {
  w_spec : InstanceSpec;
  w_status : InstanceStatus;
  w_calls : list Call
}.

Inductive Outcome (A : Type) :=
| Done (a : A)
| Panic.
Arguments Done {A} a.
Arguments Panic {A}.

Definition M (A : Type) := World -> Outcome A * World.

Definition ret {A} (a : A) : M A := fun w => (Done a, w).

Definition bind {A B} (c : M A) (k : A -> M B) : M B :=
  fun w =>
    match c w with
    | (Done a, w') => k a w'
    | (Panic, w') => (Panic, w')
    end.

Declare Scope go_scope.
Delimit Scope go_scope with go.
Notation "x <- c ;; k" := (bind c (fun x => k))
  (at level 61, c at next level, right associativity) : go_scope.
Notation "' p <- c ;; k" := (bind c (fun x => let p := x in k))
  (at level 61, p pattern, c at next level, right associativity) : go_scope.
Notation "c ;; k" := (bind c (fun _ => k))
  (at level 61, right associativity) : go_scope.
Open Scope go_scope.

Definition panic {A} : M A := fun w => (Panic, w).

Definition deref {A} (p : option A) : M A :=
  match p with
  | Some a => ret a
  | None => panic
  end.

Definition getSpec : M InstanceSpec := fun w => (Done (w_spec w), w).
Definition getStatus : M InstanceStatus := fun w => (Done (w_status w), w).

Definition modifySpec (f : InstanceSpec -> InstanceSpec) : M unit :=
  fun w => (Done tt, mkWorld (f (w_spec w)) (w_status w) (w_calls w)).
Definition modifyStatus (f : InstanceStatus -> InstanceStatus) : M unit :=
  fun w => (Done tt, mkWorld (w_spec w) (f (w_status w)) (w_calls w)).

Definition issue (c : Call) : M unit :=
  fun w => (Done tt, mkWorld (w_spec w) (w_status w) (w_calls w ++ [c])).

Definition setCurrentState (s : InstanceState) : M unit :=
  modifyStatus (fun st =>
    mkStatus s (Started st) (IP st) (CurrentImage st) (NodeBootID st)).
Definition setStarted (b : bool) : M unit :=
  modifyStatus (fun st =>
    mkStatus (CurrentState st) b (IP st) (CurrentImage st) (NodeBootID st)).
Definition setIP (ip : string) : M unit :=
  modifyStatus (fun st =>
    mkStatus (CurrentState st) (Started st) ip (CurrentImage st) (NodeBootID st)).
Definition setCurrentImage (img : string) : M unit :=
  modifyStatus (fun st =>
    mkStatus (CurrentState st) (Started st) (IP st) img (NodeBootID st)).
Definition setNodeBootID (id : string) : M unit :=
  modifyStatus (fun st =>
    mkStatus (CurrentState st) (Started st) (IP st) (CurrentImage st) id).
Definition setNodeID (n : string) : M unit :=
  modifySpec (fun sp => mkSpec (DesireState sp) n (EngineImage sp)).

(** ** The handler *)

Definition CrashLogsTaillines : Z := 100.

Definition GetNodeBootIDForPod (h : InstanceHandler) (pod : option Pod)
  : M (string * option error) :=
  p <- deref pod ;;
  let nodeName := NodeName p in
  let res := Nodes_Get (kubeClient h) nodeName in
  issue (NodesGet nodeName res) ;;
  match snd res with
  | Some err => ret ("", Some err)
  | None =>
      node <- deref (fst res) ;;
      ret (BootID node, None)
  end.

(** The loop over pod.Status.ContainerStatuses: [true] when it runs to its
    end, [false] when it meets a container that is not ready. *)
Fixpoint allReady (sts : list ContainerStatus) : bool :=
  match sts with
  | [] => true
  | st :: rest => if negb (Ready st) then false else allReady rest
  end.

Definition syncStatusWithPod (h : InstanceHandler) (pod : option Pod) : M unit :=
  match pod with
  | None =>
      status <- getStatus ;;
      if Started status then
        setCurrentState InstanceStateError ;;
        setIP "" ;;
        setCurrentImage ""
      else
        setCurrentState InstanceStateStopped ;;
        setIP "" ;;
        setCurrentImage ""
  | Some p =>
      if negb (isNil (DeletionTimestamp p)) then
        setCurrentState InstanceStateStopping ;;
        setIP "" ;;
        setCurrentImage ""
      else
        match Phase p with
        | PodPending =>
            setCurrentState InstanceStateStarting ;;
            setIP "" ;;
            setCurrentImage ""
        | PodRunning =>
            if negb (allReady (ContainerStatuses p)) then
              setCurrentState InstanceStateStarting ;;
              setIP "" ;;
              setCurrentImage ""
            else
              setCurrentState InstanceStateRunning ;;
              status <- getStatus ;;
              (if negb (IP status =? PodIP p)%string
               then setIP (PodIP p) else ret tt) ;;
              status <- getStatus ;;
              spec <- getSpec ;;
              (if (CurrentImage status =? "")%string
               then setCurrentImage (EngineImage spec) else ret tt) ;;
              '(nodeBootID, err) <- GetNodeBootIDForPod h pod ;;
              match err with
              | Some _ => ret tt
              | None => setNodeBootID nodeBootID
              end
        | _ =>
            setCurrentState InstanceStateError ;;
            setIP "" ;;
            setCurrentImage ""
        end
  end.

Definition getNameFromObj (obj : RuntimeObject) : string * option error :=
  match obj with
  | NoAccessor err => ("", Some err)
  | WithName name => (name, None)
  end.

Definition getPod (h : InstanceHandler) (podName : string)
  : M (option Pod * option error) :=
  issue (ListerGet (namespace h) podName) ;;
  ret (pLister h (namespace h) podName).

Definition getPodLogs (h : InstanceHandler) (podName : string) (taillines : Z)
  : M (string * option error) :=
  let req := Pods_GetLogs (kubeClient h) (namespace h) podName taillines in
  if (URLPath req =? "")%string then
    ret ("", Some (ErrEmptyRequestPath (namespace h) podName))
  else
    issue (PodsGetLogs (namespace h) podName taillines) ;;
    match snd (DoRaw req) with
    | Some err => ret ("", Some err)
    | None => ret (fst (DoRaw req), None)
    end.

Definition createPodForObject (h : InstanceHandler) (pod : option Pod)
  : M (option Pod * option error) :=
  issue (PodsCreate (namespace h) pod) ;;
  let '(p, err) := Pods_Create (kubeClient h) (namespace h) pod in
  match err with
  | Some e =>
      pd <- deref pod ;;
      issue (Eventf EventTypeWarning EventReasonFailedStarting (Name pd)) ;;
      ret (None, Some e)
  | None =>
      pd <- deref pod ;;
      issue (Eventf EventTypeNormal EventReasonStart (Name pd)) ;;
      ret (p, None)
  end.

Definition deletePodForObject (h : InstanceHandler) (obj : RuntimeObject)
  : M (option error) :=
  let '(podName, err) := getNameFromObj obj in
  match err with
  | Some e => ret (Some e)
  | None =>
      issue (PodsDelete (namespace h) podName) ;;
      match Pods_Delete (kubeClient h) (namespace h) podName with
      | Some _ =>
          issue (Eventf EventTypeWarning EventReasonFailedStopping podName) ;;
          ret None
      | None =>
          issue (Eventf EventTypeNormal EventReasonStop podName) ;;
          ret None
      end
  end.

(** The test [pod != nil && pod.DeletionTimestamp == nil], which both
    branches of the switch make. *)
Definition live (pod : option Pod) : bool :=
  negb (isNil pod) &&
  match pod with
  | Some p => isNil (DeletionTimestamp p)
  | None => false
  end.

(** The switch on spec.DesireState (lines 140-167): [inr err] when the
    function returns [err] from inside it, [inl pod] when control reaches
    the statement after the switch with that value of the variable [pod]. *)
Definition desireSwitch (h : InstanceHandler) (obj : Object)
    (runtimeObj : RuntimeObject) (pod : option Pod)
  : M (option Pod + error) :=
  spec <- getSpec ;;
  match DesireState spec with
  | InstanceStateRunning =>
      if live pod then
        setStarted true ;;
        ret (inl pod)
      else
        status <- getStatus ;;
        if negb (InstanceState_eqb (CurrentState status) InstanceStateStopped)
        then ret (inl pod)
        else
          issue (CreatePodSpec obj) ;;
          let '(podSpec, err) := podCreator h obj in
          match err with
          | Some e => ret (inr e)
          | None =>
              '(pod', err) <- createPodForObject h podSpec ;;
              match err with
              | Some e => ret (inr e)
              | None => ret (inl pod')
              end
          end
  | InstanceStateStopped =>
      r <- (if live pod then deletePodForObject h runtimeObj else ret None) ;;
      match r with
      | Some e => ret (inr e)
      | None =>
          setStarted false ;;
          setNodeBootID "" ;;
          ret (inl pod)
      end
  | _ => ret (inr (ErrUnknownDesireState (DesireState spec)))
  end.

(** Lines 132-138: the pod the lister has under the name, not-found
    counting as no pod. *)
Definition fetchPod (h : InstanceHandler) (podName : string)
  : M (option Pod + error) :=
  '(pod, err) <- getPod h podName ;;
  if negb (isNil err) && negb (IsNotFound err) then
    match err with
    | Some e => ret (inr e)
    | None => ret (inl pod)
    end
  else
    ret (inl (if IsNotFound err then None else pod)).

(** Lines 123-169 of ReconcileInstanceState: everything up to and
    including the call of syncStatusWithPod.  [inr err] is an early
    return, [inl pod] hands the variable [pod] to the rest. *)
Definition reconcileAndSync (h : InstanceHandler) (obj : Object)
  : M (option Pod + error) :=
  match obj with
  | NotRuntime => ret (inr ErrNotRuntimeObject)
  | Runtime runtimeObj =>
      let '(podName, err) := getNameFromObj runtimeObj in
      match err with
      | Some e => ret (inr e)
      | None =>
          f <- fetchPod h podName ;;
          match f with
          | inr e => ret (inr e)
          | inl pod =>
              d <- desireSwitch h obj runtimeObj pod ;;
              match d with
              | inr e => ret (inr e)
              | inl pod =>
                  syncStatusWithPod h pod ;;
                  ret (inl pod)
              end
          end
      end
  end.

(** Lines 171-192: node pinning and the crash log. *)
Definition pinAndDiagnose (h : InstanceHandler) (pod : option Pod)
  : M (option error) :=
  status <- getStatus ;;
  if InstanceState_eqb (CurrentState status) InstanceStateRunning then
    spec <- getSpec ;;
    if (NodeID spec =? "")%string then
      p <- deref pod ;;
      setNodeID (NodeName p) ;;
      ret None
    else
      p <- deref pod ;;
      if negb (NodeID spec =? NodeName p)%string then
        setCurrentState InstanceStateError ;;
        setIP "" ;;
        setNodeBootID "" ;;
        ret (Some (ErrNotPinned (Name p) (NodeID spec)))
      else ret None
  else if InstanceState_eqb (CurrentState status) InstanceStateError
          && negb (isNil pod) then
    p <- deref pod ;;
    _ <- getPodLogs h (Name p) CrashLogsTaillines ;;
    ret None
  else ret None.

Definition ReconcileInstanceState (h : InstanceHandler) (obj : Object)
  : M (option error) :=
  r <- reconcileAndSync h obj ;;
  match r with
  | inr e => ret (Some e)
  | inl pod => pinAndDiagnose h pod
  end.

Definition DeleteInstanceForObject (h : InstanceHandler) (obj : RuntimeObject)
  : M (option error) :=
  let '(podName, err) := getNameFromObj obj in
  match err with
  | Some e => ret (Some e)
  | None =>
      '(pod, err) <- getPod h podName ;;
      if negb (isNil err) && negb (IsNotFound err) then ret err
      else if IsNotFound err then ret None
      else
        p <- deref pod ;;
        if negb (isNil (DeletionTimestamp p)) then ret None
        else deletePodForObject h obj
  end.

(** ** Running the handler *)

(** One call of ReconcileInstanceState on the given spec and status; the
    calls of the resulting world are those this call issued. *)
Definition reconcile (h : InstanceHandler) (obj : Object)
    (spec : InstanceSpec) (status : InstanceStatus)
  : Outcome (option error) * World :=
  ReconcileInstanceState h obj (mkWorld spec status []).

(** One call of syncStatusWithPod, likewise. *)
Definition project (h : InstanceHandler) (pod : option Pod)
    (spec : InstanceSpec) (status : InstanceStatus)
  : Outcome unit * World :=
  syncStatusWithPod h pod (mkWorld spec status []).

(** Successive reconciliation cycles of one object, one handler per cycle
    (what the cluster answers may change between cycles); each cycle
    starts from the spec and status the previous one left. *)
Fixpoint cycles (hs : list InstanceHandler) (obj : Object)
    (spec : InstanceSpec) (status : InstanceStatus)
  : list (Outcome (option error) * World) :=
  match hs with
  | [] => []
  | h :: rest =>
      let r := reconcile h obj spec status in
      r :: cycles rest obj (w_spec (snd r)) (w_status (snd r))
  end.

Definition isCreate (c : Call) : bool :=
  match c with
  | CreatePodSpec _ | PodsCreate _ _ => true
  | _ => false
  end.

Definition isDelete (c : Call) : bool :=
  match c with
  | PodsDelete _ _ => true
  | _ => false
  end.

Definition creates (cs : list Call) : list Call := filter isCreate cs.
Definition deletes (cs : list Call) : list Call := filter isDelete cs.

(** The boot ID a successful node lookup among the calls returned. *)
Definition lookupOk (c : Call) : option string :=
  match c with
  | NodesGet _ (Some node, None) => Some (BootID node)
  | _ => None
  end.

Definition lookupFailed (c : Call) : bool :=
  match c with
  | NodesGet _ (_, Some _) => true
  | _ => false
  end.

(** What the lister answers for the object's pod. *)
Definition podAbsent (h : InstanceHandler) (name : string) : Prop :=
  IsNotFound (snd (pLister h (namespace h) name)) = true \/
  pLister h (namespace h) name = (None, None).

Definition podLive (h : InstanceHandler) (name : string) (p : Pod) : Prop :=
  pLister h (namespace h) name = (Some p, None) /\ DeletionTimestamp p = None.

(** The status, spec and calls a run ends with. *)
Definition statusOf {A} (r : Outcome A * World) : InstanceStatus := w_status (snd r).
Definition specOf {A} (r : Outcome A * World) : InstanceSpec := w_spec (snd r).
Definition callsOf {A} (r : Outcome A * World) : list Call := w_calls (snd r).

(** The world after one more call, and with another status. *)
Definition called (w : World) (c : Call) : World :=
  mkWorld (w_spec w) (w_status w) (w_calls w ++ [c]).

Definition withStatus (w : World) (st : InstanceStatus) : World :=
  mkWorld (w_spec w) st (w_calls w).

(** The projection followed by the pinning step, as ReconcileInstanceState
    runs them once the switch is through. *)
Definition syncAndPin (h : InstanceHandler) (pod : option Pod) : M (option error) :=
  r <- (syncStatusWithPod h pod ;; ret (@inl (option Pod) error pod)) ;;
  match r with
  | inr e => ret (Some e)
  | inl pod => pinAndDiagnose h pod
  end.

(** ** Relations between the world before and after *)

(** [frames R c]: every run of [c] takes a world to one related to it by [R]. *)
Definition frames {A} (R : World -> World -> Prop) (c : M A) : Prop :=
  forall w, R w (snd (c w)).

(** The relation the projection and the pinning step both respect: the
    desired state, the Started flag, and the create and delete calls
    issued so far stay as they are. *)
Definition quiet (w w' : World) : Prop :=
  DesireState (w_spec w') = DesireState (w_spec w) /\
  Started (w_status w') = Started (w_status w) /\
  creates (w_calls w') = creates (w_calls w) /\
  deletes (w_calls w') = deletes (w_calls w).

(** The spec is as it was. *)
Definition sameSpec (w w' : World) : Prop := w_spec w' = w_spec w.

(** ** Concrete collaborators for the examples *)

Module Sample.

Definition okClient : KubeClient :=
  mkKubeClient
    (fun _ pod => (pod, None))
    (fun _ _ => None)
    (fun _ _ _ => mkRequest "/log" ("", None))
    (fun _ => (Some (mkNode "boot-1"), None)).

Definition failingDelete : KubeClient :=
  mkKubeClient
    (fun _ pod => (pod, None))
    (fun _ _ => Some (APIError false "etcdserver: request timed out"))
    (fun _ _ _ => mkRequest "/log" ("", None))
    (fun _ => (Some (mkNode "boot-1"), None)).

Definition noNode : KubeClient :=
  mkKubeClient
    (fun _ pod => (pod, None))
    (fun _ _ => None)
    (fun _ _ _ => mkRequest "/log" ("", None))
    (fun _ => (None, Some (APIError true "node not found"))).

Definition pod (deleted : option Z) (phase : PodPhase) (node : string) : Pod :=
  mkPod "vol-e" deleted phase [mkContainerStatus true] "10.0.0.5" node.

Definition noPod (k : KubeClient) : InstanceHandler :=
  mkHandler "longhorn" k
    (fun _ _ => (None, Some (APIError true "pod not found")))
    (fun _ => (Some (pod None PodPending ""), None)).

Definition withPod (k : KubeClient) (p : Pod) : InstanceHandler :=
  mkHandler "longhorn" k
    (fun _ _ => (Some p, None))
    (fun _ => (Some (pod None PodPending ""), None)).

Definition obj : Object := Runtime (WithName "vol-e").

Definition spec (d : InstanceState) (node : string) : InstanceSpec :=
  mkSpec d node "longhorn-engine:v2".

Definition status (s : InstanceState) (started : bool) : InstanceStatus :=
  mkStatus s started "10.0.0.5" "longhorn-engine:v1" "boot-0".

End Sample.

(** ** More vocabulary for the calls *)

Definition isPodsCreate (c : Call) : bool :=
  match c with
  | PodsCreate _ _ => true
  | _ => false
  end.

Definition isNodesGet (c : Call) : bool :=
  match c with
  | NodesGet _ _ => true
  | _ => false
  end.

Definition isEventf (c : Call) : bool :=
  match c with
  | Eventf _ _ _ => true
  | _ => false
  end.

(** The handler [h] with another client for the pod logs. *)
Definition withLogs (h : InstanceHandler)
    (logs : string -> string -> Z -> Request) : InstanceHandler :=
  mkHandler (namespace h)
    (mkKubeClient (Pods_Create (kubeClient h)) (Pods_Delete (kubeClient h))
       logs (Nodes_Get (kubeClient h)))
    (pLister h) (podCreator h).

(** Collaborators that keep to the convention of the Go clients: a nil
    error comes with a non-nil pointer. *)
Definition creatorSound (h : InstanceHandler) : Prop :=
  forall obj, podCreator h obj <> (None, None).

Definition nodesSound (h : InstanceHandler) : Prop :=
  forall name, Nodes_Get (kubeClient h) name <> (None, None).

(** One call of DeleteInstanceForObject, from an empty list of calls. *)
Definition teardown (h : InstanceHandler) (obj : RuntimeObject)
    (spec : InstanceSpec) (status : InstanceStatus)
  : Outcome (option error) * World :=
  DeleteInstanceForObject h obj (mkWorld spec status []).

(** Status and spec are both as they were. *)
Definition untouched (w w' : World) : Prop :=
  w_spec w' = w_spec w /\ w_status w' = w_status w.

(** The state the spec's projection rules give (section 4.1, rules 1 to 5
    in their order): what the spec says, to be compared with what
    syncStatusWithPod does. *)
Definition projectedState (pod : option Pod) (started : bool) : InstanceState :=
  match pod with
  | None => if started then InstanceStateError else InstanceStateStopped
  | Some p =>
      match DeletionTimestamp p with
      | Some _ => InstanceStateStopping
      | None =>
          match Phase p with
          | PodPending => InstanceStateStarting
          | PodRunning =>
              if forallb Ready (ContainerStatuses p)
              then InstanceStateRunning else InstanceStateStarting
          | _ => InstanceStateError
          end
      end
  end.

(** The calls that only read from the cluster after the fetch: the node
    lookup and the pod log. *)
Definition readOnly (c : Call) : bool :=
  match c with
  | NodesGet _ _ | PodsGetLogs _ _ _ => true
  | _ => false
  end.

(** The later world has the calls of the earlier one followed by calls
    that satisfy [P]. *)
Definition appends (P : Call -> bool) (w w' : World) : Prop :=
  exists l, w_calls w' = (w_calls w ++ l)%list /\ Forall (fun c => P c = true) l.

(** More collaborators for the examples. *)
Module Cases.

Definition nilNode : KubeClient :=
  mkKubeClient
    (fun _ pod => (pod, None))
    (fun _ _ => None)
    (fun _ _ _ => mkRequest "/log" ("", None))
    (fun _ => (None, None)).

Definition noLogPath : KubeClient :=
  mkKubeClient
    (fun _ pod => (pod, None))
    (fun _ _ => None)
    (fun _ _ _ => mkRequest "" ("2018-10-01T00:00:00Z started", None))
    (fun _ => (Some (mkNode "boot-1"), None)).

Definition failingLogs : KubeClient :=
  mkKubeClient
    (fun _ pod => (pod, None))
    (fun _ _ => None)
    (fun _ _ _ => mkRequest "/log" ("partial", Some (APIError false "stream reset")))
    (fun _ => (Some (mkNode "boot-1"), None)).

Definition failingCreate : KubeClient :=
  mkKubeClient
    (fun _ pod => (pod, Some (APIError false "quota exceeded")))
    (fun _ _ => None)
    (fun _ _ _ => mkRequest "/log" ("", None))
    (fun _ => (Some (mkNode "boot-1"), None)).

Definition failingLister (k : KubeClient) : InstanceHandler :=
  mkHandler "longhorn" k
    (fun _ _ => (None, Some (APIError false "cache not synced")))
    (fun _ => (Some (Sample.pod None PodPending ""), None)).

End Cases.

(** * The CSI plugin deployment (package csi) *)

Module csi.

Definition DefaultCSIAttacherImage : string := "quay.io/k8scsi/csi-attacher:v0.4.0".
Definition DefaultCSIProvisionerImage : string := "quay.io/k8scsi/csi-provisioner:v0.3.1".
Definition DefaultCSIDriverRegistrarImage : string := "quay.io/k8scsi/driver-registrar:v0.4.1".
Definition DefaultCSIProvisionerName : string := "rancher.io/longhorn".

(** The values of v1.HostPathType and v1.MountPropagationMode the package
    takes the address of. *)
Inductive HostPathType := HostPathDirectory | HostPathDirectoryOrCreate.

Inductive MountPropagationMode := MountPropagationBidirectional.

Record VolumeMount := mkVolumeMount {
  VolumeMount_Name : string;
  VolumeMount_ReadOnly : bool;
  VolumeMount_MountPath : string;
  VolumeMount_MountPropagation : option MountPropagationMode
}.

Record HostPathVolumeSource := mkHostPath {
  HostPath_Path : string;
  HostPath_Type : option HostPathType
}.

Record Volume := mkVolume {
  Volume_Name : string;
  Volume_HostPath : option HostPathVolumeSource
}.

(** An EnvVar has a literal Value or a ValueFrom.FieldRef.FieldPath. *)
Record EnvVar := mkEnvVar {
  EnvVar_Name : string;
  EnvVar_Value : string;
  EnvVar_FieldPath : option string
}.

Record SecurityContext := mkSecurityContext {
  Privileged : option bool;
  Capabilities_Add : list string;
  AllowPrivilegeEscalation : option bool
}.

Record Container := mkContainer {
  Container_Name : string;
  Container_Image : string;
  Container_Args : list string;
  Container_Env : list EnvVar;
  Container_VolumeMounts : list VolumeMount;
  Container_SecurityContext : option SecurityContext
}.

Record ObjectMeta := mkObjectMeta {
  Meta_Name : string;
  Meta_Namespace : string;
  Meta_Labels : list (string * string)
}.

Record PodSpec := mkPodSpec {
  ServiceAccountName : string;
  Containers : list Container;
  Volumes : list Volume
}.

Record PodTemplateSpec := mkPodTemplateSpec {
  Template_ObjectMeta : ObjectMeta;
  Template_Spec : PodSpec
}.

Record DaemonSetSpec := mkDaemonSetSpec {
  Selector_MatchLabels : list (string * string);
  Template : PodTemplateSpec
}.

Record DaemonSet := mkDaemonSet {
  DaemonSet_ObjectMeta : ObjectMeta;
  DaemonSet_Spec : DaemonSetSpec
}.

Record PluginDeployment := mkPluginDeployment { daemonSet : DaemonSet }.

Definition hostPathVolume (name path : string) (t : option HostPathType) : Volume :=
  mkVolume name (Some (mkHostPath path t)).

Definition NewPluginDeployment
    (namespace serviceAccount driverRegistrarImage managerImage managerURL : string)
    (kubeletPluginWatcherEnabled : bool) : PluginDeployment :=
  let args := ["--v=5"; "--csi-address=$(ADDRESS)"] in
  let volumeMounts :=
    [mkVolumeMount "socket-dir" false
       "/var/lib/kubelet/plugins/io.rancher.longhorn" None] in
  let volumes :=
    [hostPathVolume "plugin-dir" "/var/lib/kubelet/plugins/io.rancher.longhorn"
       (Some HostPathDirectoryOrCreate);
     hostPathVolume "pods-mount-dir" "/var/lib/kubelet/pods"
       (Some HostPathDirectoryOrCreate);
     hostPathVolume "socket-dir" "/var/lib/kubelet/plugins/io.rancher.longhorn"
       (Some HostPathDirectoryOrCreate);
     hostPathVolume "host-dev" "/dev" None;
     hostPathVolume "host-sys" "/sys" None;
     hostPathVolume "lib-modules" "/lib-modules" None] in
  let args :=
    if kubeletPluginWatcherEnabled
    then (args ++ ["--kubelet-registration-path=/var/lib/kubelet/plugins/io.rancher.longhorn/csi.sock"])%list
    else args in
  let volumeMounts :=
    if kubeletPluginWatcherEnabled
    then (volumeMounts ++
          [mkVolumeMount "registration-dir" false "/registration" None])%list
    else volumeMounts in
  let volumes :=
    if kubeletPluginWatcherEnabled
    then (volumes ++
          [hostPathVolume "registration-dir" "/var/lib/kubelet/plugins/"
             (Some HostPathDirectory)])%list
    else volumes in
  let daemonSet :=
    mkDaemonSet
      (mkObjectMeta "longhorn-csi-plugin" namespace [])
      (mkDaemonSetSpec
         [("app", "longhorn-csi-plugin")]
         (mkPodTemplateSpec
            (mkObjectMeta "" "" [("app", "longhorn-csi-plugin")])
            (mkPodSpec serviceAccount
               [mkContainer "driver-registrar" driverRegistrarImage args
                  [mkEnvVar "ADDRESS"
                     "/var/lib/kubelet/plugins/io.rancher.longhorn/csi.sock" None;
                   mkEnvVar "KUBE_NODE_NAME" "" (Some "spec.nodeName")]
                  volumeMounts
                  None;
                mkContainer "longhorn-csi-plugin" managerImage
                  ["longhorn-manager"; "-d"; "csi"; "--nodeid=$(NODE_ID)";
                   "--endpoint=$(CSI_ENDPOINT)";
                   "--drivername=io.rancher.longhorn";
                   "--manager-url=" ++ managerURL]
                  [mkEnvVar "NODE_ID" "" (Some "spec.nodeName");
                   mkEnvVar "CSI_ENDPOINT"
                     "unix://var/lib/kubelet/plugins/io.rancher.longhorn/csi.sock"
                     None]
                  [mkVolumeMount "plugin-dir" false
                     "/var/lib/kubelet/plugins/io.rancher.longhorn" None;
                   mkVolumeMount "pods-mount-dir" false "/var/lib/kubelet/pods"
                     (Some MountPropagationBidirectional);
                   mkVolumeMount "host-dev" false "/dev" None;
                   mkVolumeMount "host-sys" false "/sys" None;
                   mkVolumeMount "lib-modules" true "/lib/modules" None]
                  (Some (mkSecurityContext (Some true) ["SYS_ADMIN"] (Some true)))]
               volumes))) in
  mkPluginDeployment daemonSet.

(** The pod the daemon set runs, and its parts. *)
Definition podSpecOf (p : PluginDeployment) : PodSpec :=
  Template_Spec (Template (DaemonSet_Spec (daemonSet p))).

Definition volumeNames (p : PluginDeployment) : list string :=
  map Volume_Name (Volumes (podSpecOf p)).

Definition mountNames (c : Container) : list string :=
  map VolumeMount_Name (Container_VolumeMounts c).

(** The host path of the volume called [name], when the pod has one. *)
Definition hostPathOf (p : PluginDeployment) (name : string) : option string :=
  match find (fun v => (Volume_Name v =? name)%string) (Volumes (podSpecOf p)) with
  | Some v => option_map HostPath_Path (Volume_HostPath v)
  | None => None
  end.

(** Looking things up in the manifest by name. *)
Definition container (p : PluginDeployment) (name : string) : option Container :=
  find (fun c => (Container_Name c =? name)%string) (Containers (podSpecOf p)).



End csi.

(** * Properties *)

(** ** Basic facts *)

Lemma InstanceState_eqb_eq (a b : InstanceState) :
  InstanceState_eqb a b = true <-> a = b.
Proof. destruct a, b; simpl; split; congruence. Qed.

Lemma allReady_forall (sts : list ContainerStatus) :
  allReady sts = true <-> Forall (fun st => Ready st = true) sts.
Proof.
  induction sts as [|st rest IH]; simpl.
  - split; auto.
  - destruct (Ready st) eqn:E; simpl.
    + rewrite IH. split; intro H.
      * constructor; assumption.
      * inversion H; assumption.
    + split; [discriminate|]. intro H. inversion H. congruence.
Qed.

(** Unfolds the monad and the helpers of the handler, leaving matches on
    what the collaborators answered. *)
Ltac unfold_go :=
  unfold project, reconcile, ReconcileInstanceState, reconcileAndSync,
    pinAndDiagnose, desireSwitch, fetchPod, getPod, getPodLogs,
    createPodForObject, deletePodForObject, syncStatusWithPod,
    GetNodeBootIDForPod, getNameFromObj,
    setCurrentState, setStarted, setIP, setCurrentImage, setNodeBootID,
    setNodeID, modifyStatus, modifySpec, getSpec, getStatus, issue, deref,
    panic, bind, ret in *.

(** ** The status projection *)

(** C6: with a nil pod, syncStatusWithPod sets CurrentState to Error when
    status.Started is true and to Stopped otherwise, and sets IP and
    CurrentImage to the empty string in both cases. *)
Theorem sync_nil_pod (h : InstanceHandler) (w : World) :
  fst (syncStatusWithPod h None w) = Done tt /\
  CurrentState (w_status (snd (syncStatusWithPod h None w))) =
    (if Started (w_status w) then InstanceStateError else InstanceStateStopped) /\
  IP (w_status (snd (syncStatusWithPod h None w))) = "" /\
  CurrentImage (w_status (snd (syncStatusWithPod h None w))) = "".
Proof.
  unfold_go. destruct (Started (w_status w)); simpl; auto.
Qed.

(** What the projection does to a pod that is not marked for deletion, in
    Running phase, with every container ready: the fields it leaves, up to
    the node lookup. *)
Lemma sync_running_image (h : InstanceHandler) (p : Pod) (w : World) :
  DeletionTimestamp p = None ->
  Phase p = PodRunning ->
  allReady (ContainerStatuses p) = true ->
  CurrentState (w_status (snd (syncStatusWithPod h (Some p) w))) = InstanceStateRunning /\
  IP (w_status (snd (syncStatusWithPod h (Some p) w))) = PodIP p /\
  CurrentImage (w_status (snd (syncStatusWithPod h (Some p) w))) =
    (if (CurrentImage (w_status w) =? "")%string
     then EngineImage (w_spec w) else CurrentImage (w_status w)).
Proof.
  intros Hd Hp Hr. unfold_go. rewrite Hd, Hp, Hr. cbn.
  destruct (String.eqb_spec (IP (w_status w)) (PodIP p)) as [Hip|Hip]; cbn;
    destruct (CurrentImage (w_status w) =? "")%string; cbn;
    destruct (Nodes_Get (kubeClient h) (NodeName p)) as [[n|] [e|]]; cbn;
    auto.
Qed.

(** C5, as amended: for a pod that is not marked for deletion, in Running
    phase, with every container ready, syncStatusWithPod leaves a non-empty
    status.CurrentImage as it was, whatever spec.EngineImage is, and sets an
    empty one to spec.EngineImage. *)
Theorem sync_image_latch (h : InstanceHandler) (p : Pod) (w : World) :
  DeletionTimestamp p = None ->
  Phase p = PodRunning ->
  allReady (ContainerStatuses p) = true ->
  (CurrentImage (w_status w) <> "" ->
   CurrentImage (w_status (snd (syncStatusWithPod h (Some p) w))) =
     CurrentImage (w_status w)) /\
  (CurrentImage (w_status w) = "" ->
   CurrentImage (w_status (snd (syncStatusWithPod h (Some p) w))) =
     EngineImage (w_spec w)).
Proof.
  intros Hd Hp Hr.
  destruct (sync_running_image h p w Hd Hp Hr) as (_ & _ & Hi).
  rewrite Hi.
  destruct (String.eqb_spec (CurrentImage (w_status w)) ""); split; congruence.
Qed.

Lemma sync_image_latch_witness :
  CurrentImage (w_status (snd (syncStatusWithPod
    (Sample.withPod Sample.okClient (Sample.pod None PodRunning "node-a"))
    (Some (Sample.pod None PodRunning "node-a"))
    (mkWorld (Sample.spec InstanceStateRunning "node-a")
             (Sample.status InstanceStateRunning true) [])))) =
  "longhorn-engine:v1".
Proof.
  apply (sync_image_latch
    (Sample.withPod Sample.okClient (Sample.pod None PodRunning "node-a"))
    (Sample.pod None PodRunning "node-a")
    (mkWorld (Sample.spec InstanceStateRunning "node-a")
             (Sample.status InstanceStateRunning true) []));
    try reflexivity.
  simpl. discriminate.
Defined.

(** C5 as first stated fails: a pod in Running phase with every container
    ready that carries a deletion timestamp has its CurrentImage cleared. *)
Lemma sync_image_latch_counterexample :
  Phase (Sample.pod (Some 1%Z) PodRunning "node-a") = PodRunning /\
  allReady (ContainerStatuses (Sample.pod (Some 1%Z) PodRunning "node-a")) = true /\
  CurrentImage (Sample.status InstanceStateRunning true) <> "" /\
  CurrentImage (w_status (snd (syncStatusWithPod
    (Sample.withPod Sample.okClient (Sample.pod (Some 1%Z) PodRunning "node-a"))
    (Some (Sample.pod (Some 1%Z) PodRunning "node-a"))
    (mkWorld (Sample.spec InstanceStateStopped "node-a")
             (Sample.status InstanceStateRunning true) [])))) <>
  CurrentImage (Sample.status InstanceStateRunning true).
Proof.
  repeat split; try reflexivity; vm_compute; discriminate.
Qed.

(** Splits a hypothesis that a call is among a list of calls written out. *)
Ltac in_calls :=
  repeat match goal with
  | H : False |- _ => destruct H
  | H : In _ [] |- _ => destruct H
  | H : In _ (_ :: _) |- _ => destruct H as [H|H]; [subst|]
  | H : _ = _ \/ _ |- _ => destruct H as [H|H]; [subst|]
  end.

(** Runs syncStatusWithPod symbolically on the pod [p], case by case on
    the pod and on what the node client answers. *)
Ltac sync_cases h p st :=
  unfold_go; cbn in *;
  destruct (DeletionTimestamp p) as [?t|] eqn:?Hdel; cbn in *;
  [ | destruct (Phase p) eqn:?Hphase; cbn in *;
      try (destruct (allReady (ContainerStatuses p)) eqn:?Hready; cbn in *;
           [ destruct (negb (IP st =? PodIP p)%string); cbn in *;
             destruct (CurrentImage st =? "")%string; cbn in *;
             destruct (Nodes_Get (kubeClient h) (NodeName p))
               as [[?n|] [?e|]] eqn:?Hnode; cbn in *
           | ]) ].

Ltac some_inj :=
  repeat match goal with
  | H : Some _ = Some ?b |- _ => injection H as H; subst b
  end.

(** C9: syncStatusWithPod never clears NodeBootID.  When one of its calls is
    a node lookup that succeeded, the pod is in Running phase with every
    container ready and NodeBootID ends as the boot ID the lookup returned;
    when none is, NodeBootID ends as it began.  So a projection into Error
    and a pod in a failed or unknown phase leave it alone, and a lookup that
    failed leaves it alone while the projection completes with CurrentState
    Running.  The lookup is made, once, for a pod in Running phase with
    every container ready that is not marked for deletion. *)
Theorem sync_boot_id (h : InstanceHandler) (pod : option Pod)
    (sp : InstanceSpec) (st : InstanceStatus) :
  (forall c id,
     In c (callsOf (project h pod sp st)) -> lookupOk c = Some id ->
     NodeBootID (statusOf (project h pod sp st)) = id /\
     exists p, pod = Some p /\ Phase p = PodRunning /\
               allReady (ContainerStatuses p) = true) /\
  ((forall c, In c (callsOf (project h pod sp st)) -> lookupOk c = None) ->
   NodeBootID (statusOf (project h pod sp st)) = NodeBootID st) /\
  (CurrentState (statusOf (project h pod sp st)) = InstanceStateError ->
   NodeBootID (statusOf (project h pod sp st)) = NodeBootID st) /\
  (forall p, pod = Some p -> Phase p <> PodPending -> Phase p <> PodRunning ->
   NodeBootID (statusOf (project h pod sp st)) = NodeBootID st) /\
  (forall c,
     In c (callsOf (project h pod sp st)) -> lookupFailed c = true ->
     fst (project h pod sp st) = Done tt /\
     CurrentState (statusOf (project h pod sp st)) = InstanceStateRunning /\
     NodeBootID (statusOf (project h pod sp st)) = NodeBootID st) /\
  (forall p, pod = Some p -> DeletionTimestamp p = None ->
   Phase p = PodRunning -> allReady (ContainerStatuses p) = true ->
   callsOf (project h pod sp st) =
     [NodesGet (NodeName p) (Nodes_Get (kubeClient h) (NodeName p))]).
Proof.
  unfold statusOf, callsOf. destruct pod as [p|].
  - repeat apply conj; intros; some_inj; sync_cases h p st;
      in_calls; cbn in *; some_inj; try discriminate; try congruence;
      try (match goal with
           | H : forall c, _ -> lookupOk c = None |- _ =>
               specialize (H _ (or_introl eq_refl)); cbn in H; discriminate
           end);
      try (split; [congruence | eauto]).
  - unfold_go; cbn; destruct (Started st); cbn;
      repeat apply conj; intros; in_calls; try discriminate; congruence.
Qed.

Lemma sync_boot_id_witness :
  NodeBootID (statusOf (project
    (Sample.withPod Sample.okClient (Sample.pod None PodRunning "node-a"))
    (Some (Sample.pod None PodRunning "node-a"))
    (Sample.spec InstanceStateRunning "node-a")
    (Sample.status InstanceStateError true))) = "boot-1" /\
  NodeBootID (statusOf (project
    (Sample.withPod Sample.noNode (Sample.pod None PodRunning "node-a"))
    (Some (Sample.pod None PodRunning "node-a"))
    (Sample.spec InstanceStateRunning "node-a")
    (Sample.status InstanceStateError true))) = "boot-0".
Proof.
  split.
  - apply (proj1 (sync_boot_id _ _ _ _)
             (NodesGet "node-a" (Some (mkNode "boot-1"), None)) "boot-1").
    + vm_compute. left. reflexivity.
    + reflexivity.
  - refine (proj2 (proj2
      (proj1 (proj2 (proj2 (proj2 (proj2 (sync_boot_id
         (Sample.withPod Sample.noNode (Sample.pod None PodRunning "node-a"))
         (Some (Sample.pod None PodRunning "node-a"))
         (Sample.spec InstanceStateRunning "node-a")
         (Sample.status InstanceStateError true))))))
         (NodesGet "node-a" (None, Some (APIError true "node not found")))
         _ _))).
    + vm_compute. left. reflexivity.
    + reflexivity.
Defined.

(** ** Reconciliation *)

(** *** What a computation leaves alone

    A relation between the world before and the world after that is
    reflexive and transitive holds of a whole computation as soon as it
    holds of its steps. *)

Section Frames.

Variable R : World -> World -> Prop.
Hypothesis R_refl : forall w, R w w.
Hypothesis R_trans : forall a b c, R a b -> R b c -> R a c.

Lemma frames_ret {A} (a : A) : frames R (ret a).
Proof. intro w. apply R_refl. Qed.

Lemma frames_panic {A} : frames R (@panic A).
Proof. intro w. apply R_refl. Qed.

Lemma frames_deref {A} (p : option A) : frames R (deref p).
Proof. destruct p; [apply frames_ret | apply frames_panic]. Qed.

Lemma frames_getSpec : frames R getSpec.
Proof. intro w. apply R_refl. Qed.

Lemma frames_getStatus : frames R getStatus.
Proof. intro w. apply R_refl. Qed.

Lemma frames_bind {A B} (c : M A) (k : A -> M B) :
  frames R c -> (forall a, frames R (k a)) -> frames R (bind c k).
Proof.
  intros Hc Hk w. unfold bind. specialize (Hc w).
  destruct (c w) as [[a|] w']; simpl in *.
  - apply R_trans with w'; [assumption | apply Hk].
  - assumption.
Qed.

End Frames.

(** Breaks a [frames] goal down along the shape of the computation;
    [leaf] closes the steps that write to the world. *)
Ltac frames_go refl trans leaf :=
  repeat first
    [ apply (frames_ret _ refl)
    | apply (frames_panic _ refl)
    | apply (frames_deref _ refl)
    | apply (frames_getSpec _ refl)
    | apply (frames_getStatus _ refl)
    | leaf
    | apply (frames_bind _ trans); [ | intro ]
    | match goal with
      | |- frames _ (match ?x with _ => _ end) => destruct x
      | |- frames _ (let '(_, _) := ?x in _) => destruct x
      end ].

Lemma quiet_refl (w : World) : quiet w w.
Proof. repeat split. Qed.

Lemma quiet_trans (a b c : World) : quiet a b -> quiet b c -> quiet a c.
Proof.
  unfold quiet. intros (H1 & H2 & H3 & H4) (K1 & K2 & K3 & K4).
  repeat split; congruence.
Qed.

Lemma quiet_issue (c : Call) :
  isCreate c = false -> isDelete c = false -> frames quiet (issue c).
Proof.
  intros Hc Hd w. unfold quiet, issue, creates, deletes. simpl.
  rewrite !filter_app. simpl. rewrite Hc, Hd, !app_nil_r. repeat split.
Qed.

Lemma quiet_modifyStatus (f : InstanceStatus -> InstanceStatus) :
  (forall st, Started (f st) = Started st) -> frames quiet (modifyStatus f).
Proof. intros Hf w. unfold quiet, modifyStatus. simpl. rewrite Hf. repeat split. Qed.

Lemma quiet_setNodeID (n : string) : frames quiet (setNodeID n).
Proof. intro w. repeat split. Qed.

Ltac quiet_leaf :=
  first
    [ apply quiet_setNodeID
    | apply quiet_issue; reflexivity
    | apply quiet_modifyStatus; intro; reflexivity ].

Ltac quiet_go := frames_go quiet_refl quiet_trans quiet_leaf.

Lemma quiet_GetNodeBootIDForPod (h : InstanceHandler) (pod : option Pod) :
  frames quiet (GetNodeBootIDForPod h pod).
Proof. unfold GetNodeBootIDForPod. quiet_go. Qed.

Lemma quiet_syncStatusWithPod (h : InstanceHandler) (pod : option Pod) :
  frames quiet (syncStatusWithPod h pod).
Proof.
  unfold syncStatusWithPod, setCurrentState, setIP, setCurrentImage, setNodeBootID.
  pose proof (quiet_GetNodeBootIDForPod h) as HG.
  frames_go quiet_refl quiet_trans ltac:(first [apply HG | quiet_leaf]).
Qed.

Lemma quiet_getPodLogs (h : InstanceHandler) (name : string) (n : Z) :
  frames quiet (getPodLogs h name n).
Proof. unfold getPodLogs. quiet_go. Qed.

Lemma quiet_pinAndDiagnose (h : InstanceHandler) (pod : option Pod) :
  frames quiet (pinAndDiagnose h pod).
Proof.
  unfold pinAndDiagnose, setCurrentState, setIP, setNodeBootID.
  pose proof (quiet_getPodLogs h) as HL.
  frames_go quiet_refl quiet_trans ltac:(first [apply HL | quiet_leaf]).
Qed.

Lemma quiet_syncAndPin (h : InstanceHandler) (pod : option Pod) :
  frames quiet (syncAndPin h pod).
Proof.
  unfold syncAndPin.
  pose proof (quiet_syncStatusWithPod h) as HS.
  pose proof (quiet_pinAndDiagnose h) as HP.
  frames_go quiet_refl quiet_trans ltac:(first [apply HS | apply HP]).
Qed.

(** *** The paths through ReconcileInstanceState *)

Lemma reconcile_unfold (h : InstanceHandler) (name : string) (w : World) :
  ReconcileInstanceState h (Runtime (WithName name)) w =
  match fetchPod h name w with
  | (Done (inl pod), w1) =>
      match desireSwitch h (Runtime (WithName name)) (WithName name) pod w1 with
      | (Done (inl pod'), w2) => syncAndPin h pod' w2
      | (Done (inr e), w2) => (Done (Some e), w2)
      | (Panic, w2) => (Panic, w2)
      end
  | (Done (inr e), w1) => (Done (Some e), w1)
  | (Panic, w1) => (Panic, w1)
  end.
Proof.
  unfold ReconcileInstanceState, reconcileAndSync, syncAndPin, getNameFromObj,
    bind, ret.
  destruct (fetchPod h name w) as [[[pod|e]|] w1]; try reflexivity.
  destruct (desireSwitch h (Runtime (WithName name)) (WithName name) pod w1)
    as [[[pod'|e]|] w2]; reflexivity.
Qed.

Lemma fetchPod_absent (h : InstanceHandler) (name : string) (w : World) :
  podAbsent h name ->
  fetchPod h name w = (Done (inl None), called w (ListerGet (namespace h) name)).
Proof.
  unfold podAbsent, fetchPod, getPod, issue, bind, ret, called. cbn.
  destruct (pLister h (namespace h) name) as [pod err]. cbn.
  intros [H|H].
  - rewrite H. destruct err; [|discriminate]. cbn. reflexivity.
  - injection H as -> ->. reflexivity.
Qed.

Lemma fetchPod_found (h : InstanceHandler) (name : string) (p : option Pod) (w : World) :
  pLister h (namespace h) name = (p, None) ->
  fetchPod h name w = (Done (inl p), called w (ListerGet (namespace h) name)).
Proof.
  intro H. unfold fetchPod, getPod, issue, bind, ret, called. cbn.
  rewrite H. reflexivity.
Qed.

Lemma fetchPod_error (h : InstanceHandler) (name : string) (p : option Pod)
    (e : error) (w : World) :
  pLister h (namespace h) name = (p, Some e) ->
  IsNotFound (Some e) = false ->
  fetchPod h name w = (Done (inr e), called w (ListerGet (namespace h) name)).
Proof.
  intros H Hn. unfold fetchPod, getPod, issue, bind, ret, called. cbn.
  rewrite H. cbn [isNil negb andb]. rewrite Hn. reflexivity.
Qed.

(** Whatever the lister answers, fetching issues one call to it, writes to
    neither struct and does not panic. *)
Lemma fetchPod_world (h : InstanceHandler) (name : string) (w : World) :
  snd (fetchPod h name w) = called w (ListerGet (namespace h) name) /\
  fst (fetchPod h name w) <> Panic.
Proof.
  unfold fetchPod, getPod, issue, bind, ret, called. cbn.
  destruct (pLister h (namespace h) name) as [pod [e|]];
    [destruct e as [[] ?| | | |]|]; cbn;
    split; try reflexivity; discriminate.
Qed.

Lemma desireSwitch_running_live (h : InstanceHandler) (obj : Object)
    (ro : RuntimeObject) (p : Pod) (w : World) :
  DesireState (w_spec w) = InstanceStateRunning ->
  DeletionTimestamp p = None ->
  desireSwitch h obj ro (Some p) w =
  (Done (inl (Some p)),
   withStatus w (mkStatus (CurrentState (w_status w)) true (IP (w_status w))
                   (CurrentImage (w_status w)) (NodeBootID (w_status w)))).
Proof.
  intros Hd Hdel. unfold desireSwitch, live, getSpec, setStarted, modifyStatus, bind, ret.
  rewrite Hd. cbn. rewrite Hdel. reflexivity.
Qed.

Lemma desireSwitch_running_wait (h : InstanceHandler) (obj : Object)
    (ro : RuntimeObject) (pod : option Pod) (w : World) :
  DesireState (w_spec w) = InstanceStateRunning ->
  live pod = false ->
  CurrentState (w_status w) <> InstanceStateStopped ->
  desireSwitch h obj ro pod w = (Done (inl pod), w).
Proof.
  intros Hd Hl Hs. unfold desireSwitch, getSpec, getStatus, bind, ret.
  rewrite Hd, Hl.
  destruct (CurrentState (w_status w)); try reflexivity. congruence.
Qed.

Lemma desireSwitch_stopped_idle (h : InstanceHandler) (obj : Object)
    (ro : RuntimeObject) (pod : option Pod) (w : World) :
  DesireState (w_spec w) = InstanceStateStopped ->
  live pod = false ->
  desireSwitch h obj ro pod w =
  (Done (inl pod),
   withStatus w (mkStatus (CurrentState (w_status w)) false (IP (w_status w))
                   (CurrentImage (w_status w)) "")).
Proof.
  intros Hd Hl.
  unfold desireSwitch, getSpec, setStarted, setNodeBootID, modifyStatus, bind, ret.
  rewrite Hd, Hl. reflexivity.
Qed.

Lemma desireSwitch_unknown (h : InstanceHandler) (obj : Object)
    (ro : RuntimeObject) (pod : option Pod) (w : World) :
  DesireState (w_spec w) <> InstanceStateRunning ->
  DesireState (w_spec w) <> InstanceStateStopped ->
  desireSwitch h obj ro pod w =
  (Done (inr (ErrUnknownDesireState (DesireState (w_spec w)))), w).
Proof.
  intros Hr Hs. unfold desireSwitch, getSpec, bind, ret.
  destruct (DesireState (w_spec w)); try reflexivity; congruence.
Qed.

(** With no pod, the projection and the pinning step come to this. *)
Lemma syncAndPin_nil (h : InstanceHandler) (w : World) :
  syncAndPin h None w =
  (Done None,
   withStatus w (mkStatus
     (if Started (w_status w) then InstanceStateError else InstanceStateStopped)
     (Started (w_status w)) "" "" (NodeBootID (w_status w)))).
Proof.
  unfold syncAndPin, syncStatusWithPod, pinAndDiagnose, withStatus.
  unfold_go. destruct (Started (w_status w)) eqn:E; cbn; rewrite ?E; reflexivity.
Qed.

(** *** The spec before the pinning step *)

Lemma sameSpec_refl (w : World) : sameSpec w w.
Proof. reflexivity. Qed.

Lemma sameSpec_trans (a b c : World) : sameSpec a b -> sameSpec b c -> sameSpec a c.
Proof. unfold sameSpec. congruence. Qed.

Lemma sameSpec_issue (c : Call) : frames sameSpec (issue c).
Proof. intro w. reflexivity. Qed.

Lemma sameSpec_modifyStatus (f : InstanceStatus -> InstanceStatus) :
  frames sameSpec (modifyStatus f).
Proof. intro w. reflexivity. Qed.

(** Nothing before the pinning step writes to the spec. *)
Lemma reconcileAndSync_spec (h : InstanceHandler) (obj : Object) :
  frames sameSpec (reconcileAndSync h obj).
Proof.
  unfold reconcileAndSync, fetchPod, getPod, desireSwitch, createPodForObject,
    deletePodForObject, syncStatusWithPod, GetNodeBootIDForPod, getNameFromObj,
    setCurrentState, setStarted, setIP, setCurrentImage, setNodeBootID.
  frames_go sameSpec_refl sameSpec_trans
    ltac:(first [apply sameSpec_issue | apply sameSpec_modifyStatus]).
Qed.

(** C1: when the projection has left CurrentState = Running and
    spec.NodeID is non-empty and differs from the node name of the pod,
    ReconcileInstanceState returns a non-nil error (the one that names the
    pod and the host it was pinned to) and leaves status.CurrentState =
    Error, status.IP and status.NodeBootID empty. *)
Theorem pin_violation (h : InstanceHandler) (obj : Object) (w w1 : World) (p : Pod) :
  reconcileAndSync h obj w = (Done (inl (Some p)), w1) ->
  CurrentState (w_status w1) = InstanceStateRunning ->
  NodeID (w_spec w) <> "" ->
  NodeID (w_spec w) <> NodeName p ->
  fst (ReconcileInstanceState h obj w) =
    Done (Some (ErrNotPinned (Name p) (NodeID (w_spec w)))) /\
  CurrentState (w_status (snd (ReconcileInstanceState h obj w))) = InstanceStateError /\
  IP (w_status (snd (ReconcileInstanceState h obj w))) = "" /\
  NodeBootID (w_status (snd (ReconcileInstanceState h obj w))) = "".
Proof.
  intros Hrun Hst Hne Hnode.
  pose proof (reconcileAndSync_spec h obj w) as Hsp.
  unfold sameSpec in Hsp. rewrite Hrun in Hsp. simpl in Hsp.
  unfold ReconcileInstanceState, bind. rewrite Hrun.
  unfold pinAndDiagnose, getStatus, getSpec, bind. rewrite Hst. cbn.
  rewrite Hsp.
  destruct (String.eqb_spec (NodeID (w_spec w)) "") as [E|_]; [contradiction|].
  destruct (String.eqb_spec (NodeID (w_spec w)) (NodeName p)) as [E|_];
    [contradiction|].
  cbn. auto.
Qed.

Lemma pin_violation_witness :
  fst (ReconcileInstanceState
         (Sample.withPod Sample.okClient (Sample.pod None PodRunning "node-b"))
         Sample.obj
         (mkWorld (Sample.spec InstanceStateRunning "node-a")
                  (Sample.status InstanceStateStarting true) [])) =
  Done (Some (ErrNotPinned "vol-e" "node-a")).
Proof.
  refine (proj1 (pin_violation
    (Sample.withPod Sample.okClient (Sample.pod None PodRunning "node-b"))
    Sample.obj
    (mkWorld (Sample.spec InstanceStateRunning "node-a")
             (Sample.status InstanceStateStarting true) [])
    (snd (reconcileAndSync
            (Sample.withPod Sample.okClient (Sample.pod None PodRunning "node-b"))
            Sample.obj
            (mkWorld (Sample.spec InstanceStateRunning "node-a")
                     (Sample.status InstanceStateStarting true) [])))
    (Sample.pod None PodRunning "node-b") _ _ _ _)).
  - vm_compute. reflexivity.
  - vm_compute. reflexivity.
  - vm_compute. discriminate.
  - vm_compute. discriminate.
Defined.

(** The projection leaves CurrentState = Running only for a pod that is
    there, so the pinning step never dereferences a nil pod. *)
Lemma running_has_pod (h : InstanceHandler) (pod : option Pod) (w : World) :
  CurrentState (w_status (snd (syncStatusWithPod h pod w))) = InstanceStateRunning ->
  pod <> None.
Proof.
  destruct pod as [p|]; [discriminate|].
  unfold_go. destruct (Started (w_status w)); cbn; discriminate.
Qed.

(** C3, as amended: with spec.DesireState neither Running nor Stopped,
    ReconcileInstanceState returns a non-nil error, which is the
    unknown-desire-state error naming that state whenever the object has a
    name and the fetch of its pod did not fail; the status and the spec
    are left as they were (CurrentState is not forced to Error), and no
    pod is created or deleted. *)
Theorem unknown_desire_state (h : InstanceHandler) (obj : Object)
    (sp : InstanceSpec) (st : InstanceStatus) :
  DesireState sp <> InstanceStateRunning ->
  DesireState sp <> InstanceStateStopped ->
  (exists e, fst (reconcile h obj sp st) = Done (Some e)) /\
  statusOf (reconcile h obj sp st) = st /\
  specOf (reconcile h obj sp st) = sp /\
  creates (callsOf (reconcile h obj sp st)) = [] /\
  deletes (callsOf (reconcile h obj sp st)) = [] /\
  (forall name pod w1,
     obj = Runtime (WithName name) ->
     fetchPod h name (mkWorld sp st []) = (Done (inl pod), w1) ->
     fst (reconcile h obj sp st) =
       Done (Some (ErrUnknownDesireState (DesireState sp)))).
Proof.
  intros Hr Hs. unfold reconcile, statusOf, specOf, callsOf.
  destruct obj as [|[name|err]].
  - cbn. repeat split; eauto. intros; discriminate.
  - rewrite reconcile_unfold.
    destruct (fetchPod_world h name (mkWorld sp st [])) as [Hw Hp].
    destruct (fetchPod h name (mkWorld sp st [])) as [[[pod|e]|] w1] eqn:Hf;
      simpl in Hw, Hp; subst w1; [ | | congruence].
    + rewrite desireSwitch_unknown by assumption. cbn.
      repeat split; eauto.
    + repeat apply conj; try (cbn; eauto; fail).
      intros n pd w1 Hobj Hf'. injection Hobj as <-.
      rewrite Hf in Hf'. discriminate.
  - cbn. repeat split; eauto. intros; discriminate.
Qed.

Lemma unknown_desire_state_witness :
  statusOf (reconcile (Sample.noPod Sample.okClient) Sample.obj
              (Sample.spec InstanceStateStarting "")
              (Sample.status InstanceStateStopped false)) =
  Sample.status InstanceStateStopped false.
Proof.
  refine (proj1 (proj2 (unknown_desire_state (Sample.noPod Sample.okClient)
    Sample.obj (Sample.spec InstanceStateStarting "")
    (Sample.status InstanceStateStopped false) _ _))); simpl; discriminate.
Defined.

(** C3 as first stated fails: with DesireState = Starting the call returns
    an error, and a status whose CurrentState was Stopped still has
    CurrentState = Stopped afterwards. *)
Lemma unknown_desire_state_counterexample :
  DesireState (Sample.spec InstanceStateStarting "") <> InstanceStateRunning /\
  DesireState (Sample.spec InstanceStateStarting "") <> InstanceStateStopped /\
  fst (reconcile (Sample.noPod Sample.okClient) Sample.obj
         (Sample.spec InstanceStateStarting "")
         (Sample.status InstanceStateStopped false)) =
    Done (Some (ErrUnknownDesireState InstanceStateStarting)) /\
  CurrentState (statusOf (reconcile (Sample.noPod Sample.okClient) Sample.obj
         (Sample.spec InstanceStateStarting "")
         (Sample.status InstanceStateStopped false))) <> InstanceStateError.
Proof.
  repeat split; try (simpl; discriminate); vm_compute; try reflexivity; discriminate.
Qed.

(** *** Errors of the collaborators *)

(** A fetch that fails with anything but not-found ends the call with that
    error, before anything is written. *)
Lemma fetch_error_returned (h : InstanceHandler) (name : string)
    (p : option Pod) (e : error) (sp : InstanceSpec) (st : InstanceStatus) :
  pLister h (namespace h) name = (p, Some e) ->
  IsNotFound (Some e) = false ->
  reconcile h (Runtime (WithName name)) sp st =
  (Done (Some e), mkWorld sp st [ListerGet (namespace h) name]).
Proof.
  intros Hl Hn. unfold reconcile.
  rewrite reconcile_unfold, (fetchPod_error h name p e) by assumption.
  reflexivity.
Qed.

(** A create that fails ends the call with the error the client gave, the
    status untouched. *)
Lemma create_error_returned (h : InstanceHandler) (name : string)
    (pod : option Pod) (ps : Pod) (p' : option Pod) (e : error)
    (sp : InstanceSpec) (st : InstanceStatus) :
  DesireState sp = InstanceStateRunning ->
  CurrentState st = InstanceStateStopped ->
  pLister h (namespace h) name = (pod, None) ->
  live pod = false ->
  podCreator h (Runtime (WithName name)) = (Some ps, None) ->
  Pods_Create (kubeClient h) (namespace h) (Some ps) = (p', Some e) ->
  fst (reconcile h (Runtime (WithName name)) sp st) = Done (Some e) /\
  statusOf (reconcile h (Runtime (WithName name)) sp st) = st.
Proof.
  intros Hd Hs Hl Hlive Hc Hk. unfold reconcile, statusOf.
  rewrite reconcile_unfold, (fetchPod_found h name pod) by assumption.
  unfold desireSwitch, createPodForObject, called, getSpec, getStatus, issue,
    deref, bind, ret.
  cbn [w_spec w_status w_calls fst snd]. rewrite Hd, Hlive.
  cbn [w_spec w_status w_calls fst snd]. rewrite Hs.
  cbn [w_spec w_status w_calls fst snd InstanceState_eqb negb]. rewrite Hc.
  cbn [w_spec w_status w_calls fst snd]. rewrite Hk. cbn. auto.
Qed.

(** A delete that fails does not end the call: deletePodForObject records
    a warning event and returns nil, so the switch goes on to clear
    Started and NodeBootID, and the projection sees the pod it fetched. *)
Lemma delete_error_dropped (h : InstanceHandler) (name : string) (p : Pod)
    (e : error) (sp : InstanceSpec) (st : InstanceStatus) :
  DesireState sp = InstanceStateStopped ->
  podLive h name p ->
  Pods_Delete (kubeClient h) (namespace h) name = Some e ->
  reconcile h (Runtime (WithName name)) sp st =
  syncAndPin h (Some p)
    (mkWorld sp (mkStatus (CurrentState st) false (IP st) (CurrentImage st) "")
       [ListerGet (namespace h) name; PodsDelete (namespace h) name;
        Eventf EventTypeWarning EventReasonFailedStopping name]).
Proof.
  intros Hd [Hl Hdel] Hk. unfold reconcile.
  rewrite reconcile_unfold, (fetchPod_found h name (Some p)) by assumption.
  unfold desireSwitch, deletePodForObject, getNameFromObj, live, called,
    getSpec, setStarted, setNodeBootID, modifyStatus, issue, bind, ret.
  cbn [w_spec w_status w_calls fst snd]. rewrite Hd.
  cbn [w_spec w_status w_calls fst snd isNil negb andb]. rewrite Hdel.
  cbn [w_spec w_status w_calls fst snd isNil negb andb]. rewrite Hk.
  cbn. reflexivity.
Qed.

(** C4 at the failing input: the desired state is Stopped, the pod is
    there and not marked for deletion, and the delete call fails with a
    time-out.  The delete is issued and the warning event recorded, yet
    ReconcileInstanceState returns nil. *)
Theorem delete_failure_returns_nil :
  Pods_Delete (kubeClient (Sample.withPod Sample.failingDelete
                             (Sample.pod None PodRunning "node-a")))
    "longhorn" "vol-e" = Some (APIError false "etcdserver: request timed out") /\
  In (PodsDelete "longhorn" "vol-e")
     (callsOf (reconcile
        (Sample.withPod Sample.failingDelete (Sample.pod None PodRunning "node-a"))
        Sample.obj (Sample.spec InstanceStateStopped "node-a")
        (Sample.status InstanceStateRunning true))) /\
  In (Eventf EventTypeWarning EventReasonFailedStopping "vol-e")
     (callsOf (reconcile
        (Sample.withPod Sample.failingDelete (Sample.pod None PodRunning "node-a"))
        Sample.obj (Sample.spec InstanceStateStopped "node-a")
        (Sample.status InstanceStateRunning true))) /\
  fst (reconcile
        (Sample.withPod Sample.failingDelete (Sample.pod None PodRunning "node-a"))
        Sample.obj (Sample.spec InstanceStateStopped "node-a")
        (Sample.status InstanceStateRunning true)) = Done None.
Proof.
  vm_compute. repeat split; auto.
Qed.

(** *** Cycles without a pod *)

Lemma reconcile_running_absent (h : InstanceHandler) (name : string)
    (sp : InstanceSpec) (st : InstanceStatus) :
  DesireState sp = InstanceStateRunning ->
  podAbsent h name ->
  CurrentState st <> InstanceStateStopped ->
  reconcile h (Runtime (WithName name)) sp st =
  (Done None,
   mkWorld sp
     (mkStatus (if Started st then InstanceStateError else InstanceStateStopped)
        (Started st) "" "" (NodeBootID st))
     [ListerGet (namespace h) name]).
Proof.
  intros Hd Ha Hs. unfold reconcile.
  rewrite reconcile_unfold, fetchPod_absent by assumption.
  rewrite desireSwitch_running_wait by (try reflexivity; assumption).
  rewrite syncAndPin_nil. reflexivity.
Qed.

Lemma reconcile_stopped_absent (h : InstanceHandler) (name : string)
    (sp : InstanceSpec) (st : InstanceStatus) :
  DesireState sp = InstanceStateStopped ->
  podAbsent h name ->
  reconcile h (Runtime (WithName name)) sp st =
  (Done None,
   mkWorld sp (mkStatus InstanceStateStopped false "" "" "")
     [ListerGet (namespace h) name]).
Proof.
  intros Hd Ha. unfold reconcile.
  rewrite reconcile_unfold, fetchPod_absent by assumption.
  rewrite desireSwitch_stopped_idle by (try reflexivity; assumption).
  rewrite syncAndPin_nil. reflexivity.
Qed.

(** C2: no self-heal from Error.  While the desired state is Running, the
    pod is absent, Started is true and CurrentState is Error, a call to
    ReconcileInstanceState returns nil, issues no pod creation and leaves
    CurrentState = Error and Started = true; so the same holds of every
    further cycle that finds the pod absent. *)
Theorem no_self_heal (hs : list InstanceHandler) (name : string)
    (sp : InstanceSpec) (st : InstanceStatus) :
  DesireState sp = InstanceStateRunning ->
  Started st = true ->
  CurrentState st = InstanceStateError ->
  Forall (fun h => podAbsent h name) hs ->
  Forall (fun r =>
            fst r = Done None /\
            creates (callsOf r) = [] /\
            CurrentState (statusOf r) = InstanceStateError /\
            Started (statusOf r) = true)
         (cycles hs (Runtime (WithName name)) sp st).
Proof.
  intros Hd Hst Hcs Habs. revert st Hst Hcs.
  induction Habs as [|h rest Hh _ IH]; intros st Hst Hcs; simpl.
  - constructor.
  - rewrite reconcile_running_absent by (try assumption; congruence).
    rewrite Hst. simpl. constructor.
    + repeat split.
    + apply IH; reflexivity.
Qed.

Lemma no_self_heal_witness :
  Forall (fun r =>
            fst r = Done None /\
            creates (callsOf r) = [] /\
            CurrentState (statusOf r) = InstanceStateError /\
            Started (statusOf r) = true)
         (cycles [Sample.noPod Sample.okClient; Sample.noPod Sample.noNode;
                  Sample.noPod Sample.okClient]
            (Runtime (WithName "vol-e"))
            (Sample.spec InstanceStateRunning "node-a")
            (Sample.status InstanceStateError true)).
Proof.
  apply (no_self_heal
    [Sample.noPod Sample.okClient; Sample.noPod Sample.noNode;
     Sample.noPod Sample.okClient]
    "vol-e" (Sample.spec InstanceStateRunning "node-a")
    (Sample.status InstanceStateError true)); try reflexivity.
  repeat constructor.
Defined.

(** C8: stop idempotence.  While the desired state is Stopped and the pod
    is not found, a call to ReconcileInstanceState returns nil, issues no
    delete and leaves Started = false and NodeBootID empty; so does every
    repetition. *)
Theorem stop_idempotent (hs : list InstanceHandler) (name : string)
    (sp : InstanceSpec) (st : InstanceStatus) :
  DesireState sp = InstanceStateStopped ->
  Forall (fun h => podAbsent h name) hs ->
  Forall (fun r =>
            fst r = Done None /\
            deletes (callsOf r) = [] /\
            Started (statusOf r) = false /\
            NodeBootID (statusOf r) = "")
         (cycles hs (Runtime (WithName name)) sp st).
Proof.
  intros Hd Habs. revert st.
  induction Habs as [|h rest Hh _ IH]; intros st; simpl.
  - constructor.
  - rewrite reconcile_stopped_absent by assumption.
    simpl. constructor.
    + repeat split.
    + apply IH.
Qed.

Lemma stop_idempotent_witness :
  Forall (fun r =>
            fst r = Done None /\
            deletes (callsOf r) = [] /\
            Started (statusOf r) = false /\
            NodeBootID (statusOf r) = "")
         (cycles [Sample.noPod Sample.okClient; Sample.noPod Sample.failingDelete]
            (Runtime (WithName "vol-e"))
            (Sample.spec InstanceStateStopped "node-a")
            (Sample.status InstanceStateRunning true)).
Proof.
  apply (stop_idempotent
    [Sample.noPod Sample.okClient; Sample.noPod Sample.failingDelete]
    "vol-e" (Sample.spec InstanceStateStopped "node-a")
    (Sample.status InstanceStateRunning true)); try reflexivity.
  repeat constructor.
Defined.

(** *** Cycles with a live pod *)

Lemma reconcile_running_live (h : InstanceHandler) (name : string) (p : Pod)
    (sp : InstanceSpec) (st : InstanceStatus) :
  DesireState sp = InstanceStateRunning ->
  podLive h name p ->
  reconcile h (Runtime (WithName name)) sp st =
  syncAndPin h (Some p)
    (mkWorld sp (mkStatus (CurrentState st) true (IP st) (CurrentImage st)
                   (NodeBootID st))
       [ListerGet (namespace h) name]).
Proof.
  intros Hd [Hl Hdel]. unfold reconcile.
  rewrite reconcile_unfold, (fetchPod_found h name (Some p)) by assumption.
  rewrite desireSwitch_running_live by assumption.
  reflexivity.
Qed.

Lemma live_cycle (h : InstanceHandler) (name : string) (p : Pod)
    (sp : InstanceSpec) (st : InstanceStatus) :
  DesireState sp = InstanceStateRunning ->
  podLive h name p ->
  creates (callsOf (reconcile h (Runtime (WithName name)) sp st)) = [] /\
  Started (statusOf (reconcile h (Runtime (WithName name)) sp st)) = true /\
  DesireState (specOf (reconcile h (Runtime (WithName name)) sp st)) =
    InstanceStateRunning.
Proof.
  intros Hd Hl. rewrite (reconcile_running_live h name p) by assumption.
  destruct (quiet_syncAndPin h (Some p)
    (mkWorld sp (mkStatus (CurrentState st) true (IP st) (CurrentImage st)
                   (NodeBootID st))
       [ListerGet (namespace h) name])) as (Q1 & Q2 & Q3 & _).
  unfold callsOf, statusOf, specOf. simpl in *. rewrite Q1, Q2, Q3. auto.
Qed.

(** With the desired state Stopped the switch always falls through: it
    issues the delete for a live pod, never a create, and clears Started
    and NodeBootID. *)
Lemma desireSwitch_stopped (h : InstanceHandler) (obj : Object) (name : string)
    (pod : option Pod) (w : World) :
  DesireState (w_spec w) = InstanceStateStopped ->
  fst (desireSwitch h obj (WithName name) pod w) = Done (inl pod) /\
  creates (w_calls (snd (desireSwitch h obj (WithName name) pod w))) =
    creates (w_calls w).
Proof.
  intro Hd.
  unfold desireSwitch, deletePodForObject, getNameFromObj, getSpec, setStarted,
    setNodeBootID, modifyStatus, issue, bind, ret, creates.
  rewrite Hd.
  destruct (live pod); cbn; [|auto].
  destruct (Pods_Delete (kubeClient h) (namespace h) name); cbn;
    rewrite <- !app_assoc, filter_app; cbn; rewrite app_nil_r; auto.
Qed.

(** A create call shows up only when the desired state is Running and
    the status came in with CurrentState = Stopped. *)
Lemma create_only_when_stopped (h : InstanceHandler) (obj : Object)
    (sp : InstanceSpec) (st : InstanceStatus) :
  creates (callsOf (reconcile h obj sp st)) <> [] ->
  DesireState sp = InstanceStateRunning /\ CurrentState st = InstanceStateStopped.
Proof.
  unfold reconcile, callsOf.
  destruct obj as [|[name|err]]; [intros []; reflexivity | | intros []; reflexivity].
  rewrite reconcile_unfold.
  destruct (fetchPod_world h name (mkWorld sp st [])) as [Hw Hp].
  destruct (fetchPod h name (mkWorld sp st [])) as [[[pod|e]|] w1];
    simpl in Hw, Hp; subst w1;
    [ | intros []; reflexivity | congruence].
  set (w1 := called (mkWorld sp st []) (ListerGet (namespace h) name)).
  assert (Hquiet : forall pod' w2,
            creates (w_calls w2) = [] ->
            creates (w_calls (snd (syncAndPin h pod' w2))) = []).
  { intros pod' w2 H2.
    destruct (quiet_syncAndPin h pod' w2) as (_ & _ & Q & _). congruence. }
  destruct (DesireState sp) eqn:Hd.
  - destruct (live pod) eqn:Hl.
    + destruct pod as [p|]; [|discriminate].
      rewrite desireSwitch_running_live; [ | exact Hd | ].
      * intros []. apply Hquiet. reflexivity.
      * unfold live in Hl. simpl in Hl. destruct (DeletionTimestamp p);
          [discriminate|reflexivity].
    + destruct (CurrentState st) eqn:Hs; [ | auto | | | ];
        (rewrite desireSwitch_running_wait;
         [ intros []; apply Hquiet; reflexivity
         | exact Hd | exact Hl | simpl; rewrite Hs; discriminate ]).
  - destruct (desireSwitch_stopped h (Runtime (WithName name)) name pod w1 Hd)
      as [Hf Hc].
    destruct (desireSwitch h (Runtime (WithName name)) (WithName name) pod w1)
      as [[[pod'|e]|] w2]; simpl in Hf, Hc; try discriminate.
    intros []. apply Hquiet. rewrite Hc. reflexivity.
  - rewrite desireSwitch_unknown by (simpl; rewrite Hd; discriminate).
    intros []. reflexivity.
  - rewrite desireSwitch_unknown by (simpl; rewrite Hd; discriminate).
    intros []. reflexivity.
  - rewrite desireSwitch_unknown by (simpl; rewrite Hd; discriminate).
    intros []. reflexivity.
Qed.

(** C7: start idempotence.  With the desired state Running and a fetched
    pod that carries no deletion timestamp, ReconcileInstanceState issues
    no pod creation and leaves Started = true, and so does every repetition
    under such an observation; and whenever a call does attempt a creation,
    the desired state is Running and status.CurrentState was Stopped. *)
Theorem start_idempotent (hs : list InstanceHandler) (name : string)
    (sp : InstanceSpec) (st : InstanceStatus) :
  (DesireState sp = InstanceStateRunning ->
   Forall (fun h => exists p, podLive h name p) hs ->
   Forall (fun r => creates (callsOf r) = [] /\ Started (statusOf r) = true)
          (cycles hs (Runtime (WithName name)) sp st)) /\
  (forall h obj,
     creates (callsOf (reconcile h obj sp st)) <> [] ->
     DesireState sp = InstanceStateRunning /\
     CurrentState st = InstanceStateStopped).
Proof.
  split.
  - intros Hd Hlive. revert sp st Hd.
    induction Hlive as [|h rest [p Hp] _ IH]; intros sp st Hd; simpl.
    + constructor.
    + destruct (live_cycle h name p sp st Hd Hp) as (Hc & Hs & Hd').
      constructor; [auto|]. apply IH. exact Hd'.
  - intros h obj. apply create_only_when_stopped.
Qed.

Lemma start_idempotent_witness :
  Forall (fun r => creates (callsOf r) = [] /\ Started (statusOf r) = true)
    (cycles [Sample.withPod Sample.okClient (Sample.pod None PodPending "");
             Sample.withPod Sample.okClient (Sample.pod None PodRunning "node-a");
             Sample.withPod Sample.okClient (Sample.pod None PodRunning "node-a")]
       (Runtime (WithName "vol-e"))
       (Sample.spec InstanceStateRunning "")
       (Sample.status InstanceStateStopped false)) /\
  CurrentState (Sample.status InstanceStateStopped false) = InstanceStateStopped.
Proof.
  split.
  - apply (proj1 (start_idempotent
      [Sample.withPod Sample.okClient (Sample.pod None PodPending "");
       Sample.withPod Sample.okClient (Sample.pod None PodRunning "node-a");
       Sample.withPod Sample.okClient (Sample.pod None PodRunning "node-a")]
      "vol-e" (Sample.spec InstanceStateRunning "")
      (Sample.status InstanceStateStopped false))).
    + reflexivity.
    + repeat constructor; eexists; split; reflexivity.
  - apply (proj2 (start_idempotent [] "vol-e"
      (Sample.spec InstanceStateRunning "")
      (Sample.status InstanceStateStopped false))
      (Sample.noPod Sample.okClient) Sample.obj).
    vm_compute. discriminate.
Defined.

(** With a pod that is not marked for deletion and whose phase is neither
    Pending nor Running, the projection sets Error and the pinning step
    only fetches the crash log. *)
Lemma syncAndPin_failed (h : InstanceHandler) (p : Pod) (w : World) :
  DeletionTimestamp p = None ->
  Phase p <> PodPending ->
  Phase p <> PodRunning ->
  fst (syncAndPin h (Some p) w) = Done None /\
  CurrentState (w_status (snd (syncAndPin h (Some p) w))) = InstanceStateError.
Proof.
  intros Hdel Hp Hr. unfold syncAndPin. unfold_go. rewrite Hdel. cbn.
  destruct (Phase p); try congruence; cbn;
    destruct (URLPath _ =? "")%string; cbn;
    try destruct (snd (DoRaw _)); cbn; auto.
Qed.

(** C10: with the desired state Running and a fetched pod that carries no
    deletion timestamp, ReconcileInstanceState leaves Started = true
    whatever the phase of the pod; for a pod in a failed or unknown phase
    the call returns nil with CurrentState = Error and Started = true. *)
Theorem started_in_any_phase (h : InstanceHandler) (name : string) (p : Pod)
    (sp : InstanceSpec) (st : InstanceStatus) :
  DesireState sp = InstanceStateRunning ->
  podLive h name p ->
  Started (statusOf (reconcile h (Runtime (WithName name)) sp st)) = true /\
  (Phase p <> PodPending -> Phase p <> PodRunning ->
   fst (reconcile h (Runtime (WithName name)) sp st) = Done None /\
   CurrentState (statusOf (reconcile h (Runtime (WithName name)) sp st)) =
     InstanceStateError /\
   Started (statusOf (reconcile h (Runtime (WithName name)) sp st)) = true).
Proof.
  intros Hd Hl.
  destruct (live_cycle h name p sp st Hd Hl) as (_ & Hs & _).
  split; [exact Hs|]. intros Hp Hr. 
  split; [|split; [|exact Hs]];
    unfold statusOf; rewrite (reconcile_running_live h name p) by assumption;
    apply syncAndPin_failed; try assumption; apply Hl.
Qed.

Lemma started_in_any_phase_witness :
  fst (reconcile (Sample.withPod Sample.okClient (Sample.pod None PodFailed "node-a"))
         (Runtime (WithName "vol-e")) (Sample.spec InstanceStateRunning "node-a")
         (Sample.status InstanceStateRunning false)) = Done None /\
  CurrentState (statusOf
    (reconcile (Sample.withPod Sample.okClient (Sample.pod None PodFailed "node-a"))
       (Runtime (WithName "vol-e")) (Sample.spec InstanceStateRunning "node-a")
       (Sample.status InstanceStateRunning false))) = InstanceStateError /\
  Started (statusOf
    (reconcile (Sample.withPod Sample.okClient (Sample.pod None PodFailed "node-a"))
       (Runtime (WithName "vol-e")) (Sample.spec InstanceStateRunning "node-a")
       (Sample.status InstanceStateRunning false))) = true.
Proof.
  apply (proj2 (started_in_any_phase
    (Sample.withPod Sample.okClient (Sample.pod None PodFailed "node-a"))
    "vol-e" (Sample.pod None PodFailed "node-a")
    (Sample.spec InstanceStateRunning "node-a")
    (Sample.status InstanceStateRunning false)
    eq_refl (conj eq_refl eq_refl))); simpl; discriminate.
Defined.

(** * Further properties of the handler *)

(** ** The projection *)

Lemma allReady_forallb (sts : list ContainerStatus) :
  allReady sts = forallb Ready sts.
Proof.
  induction sts as [|st rest IH]; simpl; [reflexivity|].
  destruct (Ready st); simpl; auto.
Qed.

(** X1: syncStatusWithPod never writes Started and never writes the spec,
    and the only call it can issue is one node lookup. *)
Theorem sync_frame (h : InstanceHandler) (pod : option Pod)
    (sp : InstanceSpec) (st : InstanceStatus) :
  Started (statusOf (project h pod sp st)) = Started st /\
  specOf (project h pod sp st) = sp /\
  Forall (fun c => isNodesGet c = true) (callsOf (project h pod sp st)) /\
  length (callsOf (project h pod sp st)) <= 1.
Proof.
  unfold statusOf, specOf, callsOf. destruct pod as [p|].
  - sync_cases h p st; repeat split; auto.
  - unfold_go; cbn; destruct (Started st) eqn:E; cbn; repeat split; auto.
Qed.

(** X2: the state syncStatusWithPod leaves is the one the five rules of the
    spec give for the pod and the Started flag, whatever the status held
    before and whatever the node client answers. *)
Theorem sync_state_table (h : InstanceHandler) (pod : option Pod)
    (sp : InstanceSpec) (st : InstanceStatus) :
  CurrentState (statusOf (project h pod sp st)) = projectedState pod (Started st).
Proof.
  unfold statusOf, projectedState. destruct pod as [p|].
  - rewrite <- allReady_forallb. sync_cases h p st; reflexivity.
  - unfold_go; cbn; destruct (Started st); reflexivity.
Qed.

(** The status the projection leaves for a pod that is not marked for
    deletion, in Running phase, with every container ready. *)
Lemma sync_running_status (h : InstanceHandler) (p : Pod)
    (sp : InstanceSpec) (st : InstanceStatus) :
  DeletionTimestamp p = None ->
  Phase p = PodRunning ->
  allReady (ContainerStatuses p) = true ->
  statusOf (project h (Some p) sp st) =
  mkStatus InstanceStateRunning (Started st) (PodIP p)
    (if (CurrentImage st =? "")%string then EngineImage sp else CurrentImage st)
    (match Nodes_Get (kubeClient h) (NodeName p) with
     | (Some n, None) => BootID n
     | _ => NodeBootID st
     end).
Proof.
  intros Hd Hp Hr. unfold statusOf. unfold_go. rewrite Hd, Hp, Hr. cbn.
  destruct (String.eqb_spec (IP st) (PodIP p)) as [Hip|Hip]; cbn;
    destruct (CurrentImage st =? "")%string; cbn;
    destruct (Nodes_Get (kubeClient h) (NodeName p)) as [[n|] [e|]]; cbn;
    rewrite ?Hip; reflexivity.
Qed.

(** X3: after syncStatusWithPod, IP and CurrentImage are empty unless
    CurrentState is Running; and when it is Running the pod is there, not
    marked for deletion, in Running phase with every container ready, and
    IP is its pod IP. *)
Theorem sync_ip_only_running (h : InstanceHandler) (pod : option Pod)
    (sp : InstanceSpec) (st : InstanceStatus) :
  (CurrentState (statusOf (project h pod sp st)) <> InstanceStateRunning ->
   IP (statusOf (project h pod sp st)) = "" /\
   CurrentImage (statusOf (project h pod sp st)) = "") /\
  (CurrentState (statusOf (project h pod sp st)) = InstanceStateRunning ->
   exists p, pod = Some p /\ DeletionTimestamp p = None /\
             Phase p = PodRunning /\ allReady (ContainerStatuses p) = true /\
             IP (statusOf (project h pod sp st)) = PodIP p).
Proof.
  destruct pod as [p|].
  - destruct (DeletionTimestamp p) as [t|] eqn:Hd;
      [ | destruct (Phase p) eqn:Hp;
          [ | destruct (allReady (ContainerStatuses p)) eqn:Hr | | | ] ].
    3: { rewrite (sync_running_status h p sp st Hd Hp Hr). cbn.
         split; [congruence|]. intros _. exists p. auto. }
    all: unfold statusOf; unfold_go; rewrite ?Hd, ?Hp, ?Hr; cbn;
      split; intro; auto; discriminate.
  - unfold statusOf; unfold_go; cbn; destruct (Started st); cbn;
      split; intro; auto; discriminate.
Qed.

Lemma sync_ip_only_running_witness :
  IP (statusOf (project (Sample.withPod Sample.okClient
                           (Sample.pod None PodFailed "node-a"))
                  (Some (Sample.pod None PodFailed "node-a"))
                  (Sample.spec InstanceStateRunning "node-a")
                  (Sample.status InstanceStateRunning true))) = "" /\
  exists p, Some (Sample.pod None PodRunning "node-a") = Some p /\
            DeletionTimestamp p = None /\ Phase p = PodRunning /\
            allReady (ContainerStatuses p) = true /\
            IP (statusOf (project (Sample.withPod Sample.okClient
                                     (Sample.pod None PodRunning "node-a"))
                            (Some (Sample.pod None PodRunning "node-a"))
                            (Sample.spec InstanceStateRunning "node-a")
                            (Sample.status InstanceStateStarting true))) = PodIP p.
Proof.
  split.
  - apply (proj1 (sync_ip_only_running
      (Sample.withPod Sample.okClient (Sample.pod None PodFailed "node-a"))
      (Some (Sample.pod None PodFailed "node-a"))
      (Sample.spec InstanceStateRunning "node-a")
      (Sample.status InstanceStateRunning true))).
    vm_compute. discriminate.
  - apply (proj2 (sync_ip_only_running
      (Sample.withPod Sample.okClient (Sample.pod None PodRunning "node-a"))
      (Some (Sample.pod None PodRunning "node-a"))
      (Sample.spec InstanceStateRunning "node-a")
      (Sample.status InstanceStateStarting true))).
    vm_compute. reflexivity.
Defined.

(** Outside that case the projection issues no call, completes, clears IP
    and CurrentImage and keeps NodeBootID. *)
Lemma sync_idle_status (h : InstanceHandler) (pod : option Pod)
    (sp : InstanceSpec) (st : InstanceStatus) :
  projectedState pod (Started st) <> InstanceStateRunning ->
  project h pod sp st =
  (Done tt,
   mkWorld sp (mkStatus (projectedState pod (Started st)) (Started st) "" ""
                 (NodeBootID st)) []).
Proof.
  unfold project, projectedState. destruct pod as [p|].
  - rewrite <- allReady_forallb.
    destruct (DeletionTimestamp p) as [t|] eqn:Hd;
      [ | destruct (Phase p) eqn:Hp;
          [ | destruct (allReady (ContainerStatuses p)) eqn:Hr | | | ] ];
      intro H; try congruence;
      unfold_go; rewrite ?Hd, ?Hp, ?Hr; reflexivity.
  - intros _. unfold_go. cbn. destruct (Started st) eqn:E; cbn; rewrite ?E; reflexivity.
Qed.

Lemma projectedState_running (pod : option Pod) (started : bool) :
  projectedState pod started = InstanceStateRunning ->
  exists p, pod = Some p /\ DeletionTimestamp p = None /\
            Phase p = PodRunning /\ allReady (ContainerStatuses p) = true.
Proof.
  unfold projectedState. destruct pod as [p|].
  - rewrite <- allReady_forallb.
    destruct (DeletionTimestamp p) eqn:Hd; [discriminate|].
    destruct (Phase p) eqn:Hp; try discriminate.
    destruct (allReady (ContainerStatuses p)) eqn:Hr; [|discriminate].
    intros _. exists p. auto.
  - destruct started; discriminate.
Qed.

Lemma InstanceState_eq_dec (a b : InstanceState) : {a = b} + {a <> b}.
Proof. decide equality. Defined.

(** X4: the projection is idempotent on the status: run again on the status
    it left, with the same pod and the same answers of the node client, it
    leaves that status as it is. *)
Theorem sync_idempotent (h : InstanceHandler) (pod : option Pod)
    (sp : InstanceSpec) (st : InstanceStatus) :
  statusOf (project h pod sp (statusOf (project h pod sp st))) =
  statusOf (project h pod sp st).
Proof.
  destruct (InstanceState_eq_dec (projectedState pod (Started st))
              InstanceStateRunning) as [Hrun|Hidle].
  - destruct (projectedState_running _ _ Hrun) as (p & -> & Hd & Hp & Hr).
    rewrite !(sync_running_status h p) by assumption. cbn.
    destruct (CurrentImage st =? "")%string eqn:Hi.
    + destruct (EngineImage sp =? "")%string eqn:He.
      * apply String.eqb_eq in He. rewrite He.
        destruct (Nodes_Get (kubeClient h) (NodeName p)) as [[n|] [e|]];
          reflexivity.
      * destruct (Nodes_Get (kubeClient h) (NodeName p)) as [[n|] [e|]];
          reflexivity.
    + rewrite Hi.
      destruct (Nodes_Get (kubeClient h) (NodeName p)) as [[n|] [e|]];
        reflexivity.
  - rewrite (sync_idle_status h pod sp st Hidle). unfold statusOf at 2 3.
    cbn [snd w_status]. rewrite sync_idle_status; cbn; [reflexivity|assumption].
Qed.

(** X5: syncStatusWithPod panics in one case only: the pod is in Running
    phase with every container ready and not marked for deletion, and the
    node client hands back a nil node with a nil error. *)
Theorem sync_panic_iff (h : InstanceHandler) (pod : option Pod)
    (sp : InstanceSpec) (st : InstanceStatus) :
  fst (project h pod sp st) = Panic <->
  exists p, pod = Some p /\ DeletionTimestamp p = None /\
            Phase p = PodRunning /\ allReady (ContainerStatuses p) = true /\
            Nodes_Get (kubeClient h) (NodeName p) = (None, None).
Proof.
  split.
  - destruct (InstanceState_eq_dec (projectedState pod (Started st))
                InstanceStateRunning) as [Hrun|Hidle].
    + destruct (projectedState_running _ _ Hrun) as (p & -> & Hd & Hp & Hr).
      intro H. exists p. repeat split; try assumption.
      revert H. unfold_go. rewrite Hd, Hp, Hr. cbn.
      destruct (negb (IP st =? PodIP p)%string); cbn;
        destruct (CurrentImage st =? "")%string; cbn;
        destruct (Nodes_Get (kubeClient h) (NodeName p)) as [[n|] [e|]]; cbn;
        intro H; try discriminate; reflexivity.
    + rewrite (sync_idle_status h pod sp st Hidle). discriminate.
  - intros (p & -> & Hd & Hp & Hr & Hn).
    unfold_go. rewrite Hd, Hp, Hr. cbn. rewrite Hn.
    destruct (negb (IP st =? PodIP p)%string); cbn;
      destruct (CurrentImage st =? "")%string; reflexivity.
Qed.

Lemma sync_panic_iff_witness :
  fst (project (Sample.withPod Cases.nilNode (Sample.pod None PodRunning "node-a"))
         (Some (Sample.pod None PodRunning "node-a"))
         (Sample.spec InstanceStateRunning "node-a")
         (Sample.status InstanceStateStarting true)) = Panic.
Proof.
  apply (proj2 (sync_panic_iff
    (Sample.withPod Cases.nilNode (Sample.pod None PodRunning "node-a"))
    (Some (Sample.pod None PodRunning "node-a"))
    (Sample.spec InstanceStateRunning "node-a")
    (Sample.status InstanceStateStarting true))).
  exists (Sample.pod None PodRunning "node-a"). repeat split.
Defined.

(** ** The helpers that talk to the cluster *)

(** X6: getPodLogs.  A request whose URL path is empty is answered with an
    error without any call to the cluster; whenever getPodLogs returns an
    error the text it returns is empty, also when the client handed back
    some bytes with its error; it never panics and writes to neither
    struct. *)
Theorem getPodLogs_errors (h : InstanceHandler) (podName : string)
    (taillines : Z) (w : World) :
  (URLPath (Pods_GetLogs (kubeClient h) (namespace h) podName taillines) = "" ->
   getPodLogs h podName taillines w =
   (Done ("", Some (ErrEmptyRequestPath (namespace h) podName)), w)) /\
  (forall logs e w',
     getPodLogs h podName taillines w = (Done (logs, Some e), w') -> logs = "") /\
  fst (getPodLogs h podName taillines w) <> Panic /\
  untouched w (snd (getPodLogs h podName taillines w)).
Proof.
  unfold getPodLogs, untouched, issue, bind, ret.
  destruct (String.eqb_spec
              (URLPath (Pods_GetLogs (kubeClient h) (namespace h) podName taillines))
              "") as [He|He].
  - repeat split; try discriminate. intros logs e w' H. congruence.
  - destruct (snd (DoRaw (Pods_GetLogs (kubeClient h) (namespace h) podName
                             taillines))) as [e|]; cbn;
      repeat split; try discriminate; try contradiction; intros; congruence.
Qed.

Lemma getPodLogs_errors_witness :
  getPodLogs (Sample.noPod Cases.noLogPath) "vol-e" CrashLogsTaillines
    (mkWorld (Sample.spec InstanceStateRunning "")
       (Sample.status InstanceStateError true) []) =
  (Done ("", Some (ErrEmptyRequestPath "longhorn" "vol-e")),
   mkWorld (Sample.spec InstanceStateRunning "")
     (Sample.status InstanceStateError true) []) /\
  fst (getPodLogs (Sample.noPod Cases.failingLogs) "vol-e" CrashLogsTaillines
         (mkWorld (Sample.spec InstanceStateRunning "")
            (Sample.status InstanceStateError true) [])) <> Panic.
Proof.
  split.
  - apply (proj1 (getPodLogs_errors (Sample.noPod Cases.noLogPath) "vol-e"
                    CrashLogsTaillines
                    (mkWorld (Sample.spec InstanceStateRunning "")
                       (Sample.status InstanceStateError true) []))).
    reflexivity.
  - apply (getPodLogs_errors (Sample.noPod Cases.failingLogs) "vol-e"
             CrashLogsTaillines
             (mkWorld (Sample.spec InstanceStateRunning "")
                (Sample.status InstanceStateError true) [])).
Defined.

(** X7: deletePodForObject returns an error only when the object has no
    accessor, and then before any call.  For an object with a name it
    issues the delete and one event, writes to neither struct and returns
    nil whether or not the delete failed; the event is the warning
    FailedStopping exactly when it failed. *)
Theorem deletePodForObject_result (h : InstanceHandler) (w : World) :
  (forall err, deletePodForObject h (NoAccessor err) w = (Done (Some err), w)) /\
  (forall name,
     fst (deletePodForObject h (WithName name) w) = Done None /\
     untouched w (snd (deletePodForObject h (WithName name) w)) /\
     w_calls (snd (deletePodForObject h (WithName name) w)) =
       (w_calls w ++
        [PodsDelete (namespace h) name;
         if isNil (Pods_Delete (kubeClient h) (namespace h) name)
         then Eventf EventTypeNormal EventReasonStop name
         else Eventf EventTypeWarning EventReasonFailedStopping name])%list).
Proof.
  split; [reflexivity|]. intro name.
  unfold deletePodForObject, getNameFromObj, untouched, issue, bind, ret.
  destruct (Pods_Delete (kubeClient h) (namespace h) name) as [e|]; cbn;
    rewrite <- app_assoc; auto.
Qed.

(** X8: createPodForObject, given a pod spec, issues the create and one
    event and writes to neither struct; when the create fails it returns a
    nil pod with the client's error, whatever pod the client handed back
    with it.  Given a nil pod spec it panics, after the create was issued. *)
Theorem createPodForObject_result (h : InstanceHandler) (w : World) :
  (forall ps,
     fst (createPodForObject h (Some ps) w) =
       Done (match snd (Pods_Create (kubeClient h) (namespace h) (Some ps)) with
             | Some e => (None, Some e)
             | None => (fst (Pods_Create (kubeClient h) (namespace h) (Some ps)), None)
             end) /\
     untouched w (snd (createPodForObject h (Some ps) w)) /\
     w_calls (snd (createPodForObject h (Some ps) w)) =
       (w_calls w ++
        [PodsCreate (namespace h) (Some ps);
         if isNil (snd (Pods_Create (kubeClient h) (namespace h) (Some ps)))
         then Eventf EventTypeNormal EventReasonStart (Name ps)
         else Eventf EventTypeWarning EventReasonFailedStarting (Name ps)])%list) /\
  createPodForObject h None w = (Panic, called w (PodsCreate (namespace h) None)).
Proof.
  split.
  - intro ps.
    unfold createPodForObject, untouched, issue, deref, bind, ret.
    destruct (Pods_Create (kubeClient h) (namespace h) (Some ps)) as [p [e|]];
      cbn; rewrite <- app_assoc; auto.
  - unfold createPodForObject, called, issue, deref, panic, bind, ret.
    destruct (Pods_Create (kubeClient h) (namespace h) None) as [p [e|]];
      reflexivity.
Qed.

(** ** DeleteInstanceForObject *)

(** X9: DeleteInstanceForObject writes to neither struct, never creates, and
    issues the delete exactly when the lister answers, without error, with a
    pod that carries no deletion timestamp; a pod not found or already
    marked for deletion gets no delete call. *)
Theorem teardown_deletes_iff_live (h : InstanceHandler) (name : string)
    (sp : InstanceSpec) (st : InstanceStatus) :
  statusOf (teardown h (WithName name) sp st) = st /\
  specOf (teardown h (WithName name) sp st) = sp /\
  creates (callsOf (teardown h (WithName name) sp st)) = [] /\
  deletes (callsOf (teardown h (WithName name) sp st)) =
    (if isNil (snd (pLister h (namespace h) name)) &&
        live (fst (pLister h (namespace h) name))
     then [PodsDelete (namespace h) name] else []).
Proof.
  unfold teardown, statusOf, specOf, callsOf, DeleteInstanceForObject,
    deletePodForObject, getPod, getNameFromObj, live, issue, deref, panic,
    bind, ret.
  cbn.
  destruct (pLister h (namespace h) name) as [[p|] [e|]]; cbn;
    try (destruct e as [[] ?| | | |]; cbn; auto; fail); auto.
  destruct (DeletionTimestamp p) as [t|]; cbn; auto.
  destruct (Pods_Delete (kubeClient h) (namespace h) name); cbn; auto.
Qed.

(** X10: what DeleteInstanceForObject returns.  It returns an error exactly
    when the lister fails with something other than not-found, and that
    error is the lister's; a failing delete is not among the causes.  It
    panics exactly when the lister hands back a nil pod with a nil error;
    in every other case it returns nil. *)
Theorem teardown_result (h : InstanceHandler) (name : string)
    (sp : InstanceSpec) (st : InstanceStatus) :
  (forall e,
     fst (teardown h (WithName name) sp st) = Done (Some e) <->
     snd (pLister h (namespace h) name) = Some e /\ IsNotFound (Some e) = false) /\
  (fst (teardown h (WithName name) sp st) = Panic <->
   pLister h (namespace h) name = (None, None)) /\
  (IsNotFound (snd (pLister h (namespace h) name)) = true ->
   teardown h (WithName name) sp st =
   (Done None, mkWorld sp st [ListerGet (namespace h) name])).
Proof.
  unfold teardown, DeleteInstanceForObject, deletePodForObject, getPod,
    getNameFromObj, issue, deref, panic, bind, ret.
  cbn.
  destruct (pLister h (namespace h) name) as [[p|] [e|]]; cbn;
    try (destruct e as [[] ?| | | |]; cbn);
    try (destruct (DeletionTimestamp p) as [t|]; cbn;
         [ | destruct (Pods_Delete (kubeClient h) (namespace h) name); cbn ]);
    repeat match goal with
           | |- _ /\ _ => split
           | |- _ <-> _ => split
           | |- forall _, _ => intro
           | H : _ /\ _ |- _ => destruct H
           | H : Done (Some _) = Done (Some _) |- _ => injection H as <-
           | H : Some _ = Some _ |- _ => injection H as <-
           end;
    cbn in *; try discriminate; try congruence; auto.
Qed.

Lemma teardown_result_witness :
  fst (teardown (Cases.failingLister Sample.failingDelete) (WithName "vol-e")
         (Sample.spec InstanceStateStopped "node-a")
         (Sample.status InstanceStateRunning true)) =
    Done (Some (APIError false "cache not synced")) /\
  teardown (Sample.noPod Sample.okClient) (WithName "vol-e")
    (Sample.spec InstanceStateStopped "node-a")
    (Sample.status InstanceStateRunning true) =
  (Done None,
   mkWorld (Sample.spec InstanceStateStopped "node-a")
     (Sample.status InstanceStateRunning true) [ListerGet "longhorn" "vol-e"]).
Proof.
  split.
  - apply (proj1 (teardown_result (Cases.failingLister Sample.failingDelete)
                    "vol-e" (Sample.spec InstanceStateStopped "node-a")
                    (Sample.status InstanceStateRunning true))).
    split; reflexivity.
  - apply (proj2 (proj2 (teardown_result (Sample.noPod Sample.okClient)
                    "vol-e" (Sample.spec InstanceStateStopped "node-a")
                    (Sample.status InstanceStateRunning true)))).
    reflexivity.
Defined.

(** ** ReconcileInstanceState: what it issues *)

Lemma appends_refl (P : Call -> bool) (w : World) : appends P w w.
Proof. exists []. rewrite app_nil_r. auto. Qed.

Lemma appends_trans (P : Call -> bool) (a b c : World) :
  appends P a b -> appends P b c -> appends P a c.
Proof.
  intros (l1 & H1 & F1) (l2 & H2 & F2). exists (l1 ++ l2)%list.
  rewrite H2, H1, app_assoc. split; [reflexivity|].
  apply Forall_app. auto.
Qed.

Lemma appends_issue (P : Call -> bool) (c : Call) :
  P c = true -> frames (appends P) (issue c).
Proof. intros Hc w. exists [c]. simpl. auto. Qed.

Lemma appends_modifyStatus (P : Call -> bool) (f : InstanceStatus -> InstanceStatus) :
  frames (appends P) (modifyStatus f).
Proof. intro w. exists []. simpl. rewrite app_nil_r. auto. Qed.

Lemma appends_modifySpec (P : Call -> bool) (f : InstanceSpec -> InstanceSpec) :
  frames (appends P) (modifySpec f).
Proof. intro w. exists []. simpl. rewrite app_nil_r. auto. Qed.

(** After the switch the handler only reads: the projection and the
    pinning step add nothing but a node lookup and a pod log request. *)
Lemma syncAndPin_reads (h : InstanceHandler) (pod : option Pod) :
  frames (appends readOnly) (syncAndPin h pod).
Proof.
  unfold syncAndPin, syncStatusWithPod, pinAndDiagnose, getPodLogs,
    GetNodeBootIDForPod, setCurrentState, setIP, setCurrentImage,
    setNodeBootID, setNodeID.
  frames_go (appends_refl readOnly) (appends_trans readOnly)
    ltac:(first [ apply appends_issue; reflexivity
                | apply appends_modifyStatus
                | apply appends_modifySpec ]).
Qed.

Lemma filter_reads (f : Call -> bool) (l : list Call) :
  (forall c, readOnly c = true -> f c = false) ->
  Forall (fun c => readOnly c = true) l ->
  filter f l = [].
Proof.
  intros Hf Hl. induction Hl as [|c l Hc _ IH]; simpl; [reflexivity|].
  rewrite (Hf c Hc). exact IH.
Qed.

(** What the switch adds to the calls: at most one create of a pod, at
    most one delete, a delete only when the desired state is Stopped. *)
Lemma desireSwitch_calls (h : InstanceHandler) (obj : Object)
    (ro : RuntimeObject) (pod : option Pod) (w : World) :
  exists l,
    w_calls (snd (desireSwitch h obj ro pod w)) = (w_calls w ++ l)%list /\
    length (filter isPodsCreate l) <= 1 /\
    length (filter isDelete l) <= 1 /\
    (DesireState (w_spec w) <> InstanceStateStopped -> filter isDelete l = []) /\
    (filter isPodsCreate l <> [] -> filter isDelete l = []).
Proof.
  unfold desireSwitch, createPodForObject, deletePodForObject, getNameFromObj,
    getSpec, getStatus, setStarted, setNodeBootID, modifyStatus, issue, deref,
    panic, bind, ret.
  destruct (DesireState (w_spec w)) eqn:Hd; cbn.
  - destruct (live pod); cbn.
    + exists []. rewrite app_nil_r. cbn. auto 6.
    + destruct (InstanceState_eqb (CurrentState (w_status w)) InstanceStateStopped);
        cbn.
      * destruct (podCreator h obj) as [ps [e|]]; cbn.
        -- exists [CreatePodSpec obj]. cbn. auto 6.
        -- destruct (Pods_Create (kubeClient h) (namespace h) ps) as [p' [e|]];
             destruct ps as [pd|]; cbn; rewrite <- ?app_assoc; cbn;
             eexists; (split; [reflexivity|]); cbn; auto 6.
      * exists []. rewrite app_nil_r. cbn. auto 6.
  - destruct (live pod); cbn.
    + destruct ro as [name|err]; cbn.
      * destruct (Pods_Delete (kubeClient h) (namespace h) name); cbn;
          rewrite <- ?app_assoc; cbn;
          eexists; (split; [reflexivity|]); cbn; repeat split; auto;
          congruence.
      * exists []. rewrite app_nil_r. cbn. auto 6.
    + exists []. rewrite app_nil_r. cbn. auto 6.
  - exists []. rewrite app_nil_r. cbn. auto 6.
  - exists []. rewrite app_nil_r. cbn. auto 6.
  - exists []. rewrite app_nil_r. cbn. auto 6.
Qed.

(** The calls of one reconciliation of a named object: the fetch, what
    the switch issues, then reads only. *)
Lemma reconcile_calls (h : InstanceHandler) (name : string)
    (sp : InstanceSpec) (st : InstanceStatus) :
  exists l r,
    callsOf (reconcile h (Runtime (WithName name)) sp st) =
      (ListerGet (namespace h) name :: l ++ r)%list /\
    Forall (fun c => readOnly c = true) r /\
    length (filter isPodsCreate l) <= 1 /\
    length (filter isDelete l) <= 1 /\
    (DesireState sp <> InstanceStateStopped -> filter isDelete l = []) /\
    (filter isPodsCreate l <> [] -> filter isDelete l = []).
Proof.
  unfold reconcile, callsOf. rewrite reconcile_unfold.
  destruct (fetchPod_world h name (mkWorld sp st [])) as [Hw Hp].
  destruct (fetchPod h name (mkWorld sp st [])) as [[[pod|e]|] w1];
    simpl in Hw, Hp; subst w1; [ | | congruence].
  - destruct (desireSwitch_calls h (Runtime (WithName name)) (WithName name) pod
                (called (mkWorld sp st []) (ListerGet (namespace h) name)))
      as (l & Hl & H1 & H2 & H3 & H4).
    simpl in Hl, H3.
    destruct (desireSwitch h (Runtime (WithName name)) (WithName name) pod
                (called (mkWorld sp st []) (ListerGet (namespace h) name)))
      as [[[pod'|e]|] w2]; simpl in Hl.
    + destruct (syncAndPin_reads h pod' w2) as (r & Hr & Fr).
      exists l, r. rewrite Hr, Hl. simpl. auto 7.
    + exists l, []. simpl. rewrite Hl, app_nil_r. auto 7.
    + exists l, []. simpl. rewrite Hl, app_nil_r. auto 7.
  - exists [], []. simpl. repeat split; auto.
Qed.

(** X11: one call of ReconcileInstanceState creates at most one pod and
    deletes at most one, never both; it deletes nothing unless the desired
    state is Stopped and attempts no creation unless it is Running. *)
Theorem one_action (h : InstanceHandler) (obj : Object)
    (sp : InstanceSpec) (st : InstanceStatus) :
  length (filter isPodsCreate (callsOf (reconcile h obj sp st))) <= 1 /\
  length (deletes (callsOf (reconcile h obj sp st))) <= 1 /\
  (filter isPodsCreate (callsOf (reconcile h obj sp st)) <> [] ->
   deletes (callsOf (reconcile h obj sp st)) = []) /\
  (DesireState sp <> InstanceStateStopped ->
   deletes (callsOf (reconcile h obj sp st)) = []) /\
  (DesireState sp <> InstanceStateRunning ->
   creates (callsOf (reconcile h obj sp st)) = []).
Proof.
  assert (Hc : DesireState sp <> InstanceStateRunning ->
               creates (callsOf (reconcile h obj sp st)) = []).
  { intro Hd. destruct (creates (callsOf (reconcile h obj sp st))) eqn:E;
      [reflexivity|].
    destruct (create_only_when_stopped h obj sp st) as [Hr _]; [|contradiction].
    rewrite E. discriminate. }
  destruct obj as [|[name|err]].
  - cbn. repeat split; auto.
  - destruct (reconcile_calls h name sp st) as (l & r & Hs & Fr & H1 & H2 & H3 & H4).
    unfold deletes in *. rewrite Hs. cbn [filter isPodsCreate isDelete].
    rewrite !filter_app.
    rewrite (filter_reads isPodsCreate r), (filter_reads isDelete r), !app_nil_r;
      try assumption;
      try (intros [] Hc'; try discriminate; reflexivity).
    repeat split; auto.
    rewrite <- Hs. exact Hc.
  - cbn. repeat split; auto.
Qed.

Lemma one_action_witness :
  deletes (callsOf (reconcile
    (Sample.withPod Sample.okClient (Sample.pod None PodRunning "node-a"))
    Sample.obj (Sample.spec InstanceStateRunning "node-a")
    (Sample.status InstanceStateRunning true))) = [] /\
  creates (callsOf (reconcile
    (Sample.withPod Sample.okClient (Sample.pod None PodRunning "node-a"))
    Sample.obj (Sample.spec InstanceStateStopped "node-a")
    (Sample.status InstanceStateRunning true))) = [] /\
  deletes (callsOf (reconcile (Sample.noPod Sample.okClient)
    Sample.obj (Sample.spec InstanceStateRunning "")
    (Sample.status InstanceStateStopped false))) = [].
Proof.
  split; [|split].
  - apply (proj1 (proj2 (proj2 (proj2 (one_action
      (Sample.withPod Sample.okClient (Sample.pod None PodRunning "node-a"))
      Sample.obj (Sample.spec InstanceStateRunning "node-a")
      (Sample.status InstanceStateRunning true)))))).
    simpl. discriminate.
  - apply (proj2 (proj2 (proj2 (proj2 (one_action
      (Sample.withPod Sample.okClient (Sample.pod None PodRunning "node-a"))
      Sample.obj (Sample.spec InstanceStateStopped "node-a")
      (Sample.status InstanceStateRunning true)))))).
    simpl. discriminate.
  - apply (proj1 (proj2 (proj2 (one_action (Sample.noPod Sample.okClient)
      Sample.obj (Sample.spec InstanceStateRunning "")
      (Sample.status InstanceStateStopped false))))).
    vm_compute. discriminate.
Defined.

(** ** ReconcileInstanceState: the spec *)

(** The pinning step writes the node ID only into an empty one, and
    nothing else of the spec. *)
Lemma pinAndDiagnose_spec (h : InstanceHandler) (pod : option Pod) (w : World) :
  DesireState (w_spec (snd (pinAndDiagnose h pod w))) = DesireState (w_spec w) /\
  EngineImage (w_spec (snd (pinAndDiagnose h pod w))) = EngineImage (w_spec w) /\
  (NodeID (w_spec w) <> "" ->
   NodeID (w_spec (snd (pinAndDiagnose h pod w))) = NodeID (w_spec w)).
Proof.
  unfold pinAndDiagnose, getPodLogs, setCurrentState, setIP, setNodeBootID,
    setNodeID, modifyStatus, modifySpec, getSpec, getStatus, issue, deref,
    panic, bind, ret.
  destruct (InstanceState_eqb (CurrentState (w_status w)) InstanceStateRunning);
    cbn.
  - destruct (String.eqb_spec (NodeID (w_spec w)) "") as [E|E]; cbn;
      destruct pod as [p|]; cbn; auto; try (repeat split; auto; congruence).
    destruct (negb (NodeID (w_spec w) =? NodeName p)%string); cbn; auto.
  - destruct (InstanceState_eqb (CurrentState (w_status w)) InstanceStateError);
      cbn; auto.
    destruct pod as [p|]; cbn; auto.
    destruct (URLPath _ =? "")%string; cbn; auto.
    destruct (snd (DoRaw _)); cbn; auto.
Qed.

Lemma reconcile_spec (h : InstanceHandler) (obj : Object)
    (sp : InstanceSpec) (st : InstanceStatus) :
  DesireState (specOf (reconcile h obj sp st)) = DesireState sp /\
  EngineImage (specOf (reconcile h obj sp st)) = EngineImage sp /\
  (NodeID sp <> "" -> NodeID (specOf (reconcile h obj sp st)) = NodeID sp).
Proof.
  unfold reconcile, specOf, ReconcileInstanceState, bind.
  pose proof (reconcileAndSync_spec h obj (mkWorld sp st [])) as Hs.
  unfold sameSpec in Hs. simpl in Hs.
  destruct (reconcileAndSync h obj (mkWorld sp st [])) as [[[pod|e]|] w1];
    simpl in *.
  - destruct (pinAndDiagnose_spec h pod w1) as (H1 & H2 & H3).
    rewrite Hs in *. auto.
  - rewrite Hs. auto.
  - rewrite Hs. auto.
Qed.

(** X12: over any sequence of cycles the desired state and the engine
    image of the spec are never written, and a node ID that is non-empty
    when the cycles begin is never written either: the handler fills in
    an empty node ID and nothing else. *)
Theorem spec_latched (hs : list InstanceHandler) (obj : Object)
    (sp : InstanceSpec) (st : InstanceStatus) :
  Forall (fun r =>
            DesireState (specOf r) = DesireState sp /\
            EngineImage (specOf r) = EngineImage sp /\
            (NodeID sp <> "" -> NodeID (specOf r) = NodeID sp))
         (cycles hs obj sp st).
Proof.
  revert sp st. induction hs as [|h rest IH]; intros sp st; simpl.
  - constructor.
  - destruct (reconcile_spec h obj sp st) as (H1 & H2 & H3).
    constructor; [auto|].
    eapply Forall_impl; [|apply IH].
    intros r (K1 & K2 & K3). unfold specOf in *.
    repeat split; try congruence.
    intro Hn. rewrite K3; [auto|]. rewrite H3; assumption.
Qed.

Lemma spec_latched_witness :
  Forall (fun r => NodeID (specOf r) = "node-a")
    (cycles [Sample.withPod Sample.okClient (Sample.pod None PodRunning "node-b");
             Sample.noPod Sample.okClient;
             Sample.withPod Sample.okClient (Sample.pod None PodRunning "node-c")]
       Sample.obj (Sample.spec InstanceStateRunning "node-a")
       (Sample.status InstanceStateStopped false)).
Proof.
  eapply Forall_impl;
    [ | apply (spec_latched
          [Sample.withPod Sample.okClient (Sample.pod None PodRunning "node-b");
           Sample.noPod Sample.okClient;
           Sample.withPod Sample.okClient (Sample.pod None PodRunning "node-c")]
          Sample.obj (Sample.spec InstanceStateRunning "node-a")
          (Sample.status InstanceStateStopped false)) ].
  intros r (_ & _ & H). apply H. simpl. discriminate.
Defined.

(** The projection and the pinning step on a pod that is not marked for
    deletion, in Running phase with every container ready, whose node the
    spec is not pinned away from. *)
Lemma syncAndPin_running (h : InstanceHandler) (p : Pod) (w : World) :
  DeletionTimestamp p = None ->
  Phase p = PodRunning ->
  allReady (ContainerStatuses p) = true ->
  Nodes_Get (kubeClient h) (NodeName p) <> (None, None) ->
  NodeID (w_spec w) = "" \/ NodeID (w_spec w) = NodeName p ->
  syncAndPin h (Some p) w =
  (Done None,
   mkWorld
     (mkSpec (DesireState (w_spec w)) (NodeName p) (EngineImage (w_spec w)))
     (mkStatus InstanceStateRunning (Started (w_status w)) (PodIP p)
        (if (CurrentImage (w_status w) =? "")%string
         then EngineImage (w_spec w) else CurrentImage (w_status w))
        (match Nodes_Get (kubeClient h) (NodeName p) with
         | (Some n, None) => BootID n
         | _ => NodeBootID (w_status w)
         end))
     (w_calls w ++
      [NodesGet (NodeName p) (Nodes_Get (kubeClient h) (NodeName p))])).
Proof.
  intros Hd Hp Hr Hn Hpin. destruct w as [sp st cs]. simpl in *.
  unfold syncAndPin. unfold_go. rewrite Hd, Hp, Hr. cbn.
  destruct (String.eqb_spec (IP st) (PodIP p)) as [Hip|Hip]; cbn;
    destruct (CurrentImage st =? "")%string; cbn;
    destruct (Nodes_Get (kubeClient h) (NodeName p)) as [[n|] [e|]]; cbn;
    try congruence;
    (destruct (String.eqb_spec (NodeID sp) "") as [E|E]; cbn;
     [ rewrite ?Hip; reflexivity
     | destruct Hpin as [Hpin|Hpin]; [contradiction|];
       rewrite Hpin, String.eqb_refl; cbn; rewrite ?Hip; destruct sp; cbn in *;
       subst; reflexivity ]).
Qed.

(** X13: when the projection has left CurrentState = Running and the node
    ID of the spec is empty or is the node of the pod, the call returns
    nil, keeps the projected status, and the node ID of the spec ends as
    the node of the pod. *)
Theorem pin_established (h : InstanceHandler) (obj : Object) (w w1 : World) (p : Pod) :
  reconcileAndSync h obj w = (Done (inl (Some p)), w1) ->
  CurrentState (w_status w1) = InstanceStateRunning ->
  NodeID (w_spec w) = "" \/ NodeID (w_spec w) = NodeName p ->
  fst (ReconcileInstanceState h obj w) = Done None /\
  NodeID (w_spec (snd (ReconcileInstanceState h obj w))) = NodeName p /\
  w_status (snd (ReconcileInstanceState h obj w)) = w_status w1 /\
  w_calls (snd (ReconcileInstanceState h obj w)) = w_calls w1.
Proof.
  intros Hrun Hst Hpin.
  pose proof (reconcileAndSync_spec h obj w) as Hsp.
  unfold sameSpec in Hsp. rewrite Hrun in Hsp. simpl in Hsp.
  unfold ReconcileInstanceState, bind. rewrite Hrun.
  unfold pinAndDiagnose, setNodeID, modifySpec, getStatus, getSpec, deref,
    bind, ret.
  rewrite Hst. cbn. rewrite Hsp.
  destruct (String.eqb_spec (NodeID (w_spec w)) "") as [E|E]; cbn;
    [repeat split|].
  destruct Hpin as [Hpin|Hpin]; [contradiction|].
  rewrite Hpin, String.eqb_refl. cbn. rewrite Hsp. repeat split; auto.
Qed.

Lemma pin_established_witness :
  NodeID (w_spec (snd (ReconcileInstanceState
    (Sample.withPod Sample.okClient (Sample.pod None PodRunning "node-b"))
    Sample.obj
    (mkWorld (Sample.spec InstanceStateRunning "")
             (Sample.status InstanceStateStarting true) [])))) = "node-b".
Proof.
  refine (proj1 (proj2 (pin_established
    (Sample.withPod Sample.okClient (Sample.pod None PodRunning "node-b"))
    Sample.obj
    (mkWorld (Sample.spec InstanceStateRunning "")
             (Sample.status InstanceStateStarting true) [])
    (snd (reconcileAndSync
            (Sample.withPod Sample.okClient (Sample.pod None PodRunning "node-b"))
            Sample.obj
            (mkWorld (Sample.spec InstanceStateRunning "")
                     (Sample.status InstanceStateStarting true) [])))
    (Sample.pod None PodRunning "node-b") _ _ _))).
  - vm_compute. reflexivity.
  - vm_compute. reflexivity.
  - left. reflexivity.
Defined.

(** ** ReconcileInstanceState: the cycle that creates and the cycle that stops *)

Lemma reconcile_creates (h : InstanceHandler) (name : string)
    (pod p' : option Pod) (ps : Pod) (sp : InstanceSpec) (st : InstanceStatus)
    (w1 : World) :
  DesireState sp = InstanceStateRunning ->
  CurrentState st = InstanceStateStopped ->
  fetchPod h name (mkWorld sp st []) = (Done (inl pod), w1) ->
  live pod = false ->
  podCreator h (Runtime (WithName name)) = (Some ps, None) ->
  Pods_Create (kubeClient h) (namespace h) (Some ps) = (p', None) ->
  reconcile h (Runtime (WithName name)) sp st =
  syncAndPin h p'
    (mkWorld sp st
       [ListerGet (namespace h) name;
        CreatePodSpec (Runtime (WithName name));
        PodsCreate (namespace h) (Some ps);
        Eventf EventTypeNormal EventReasonStart (Name ps)]).
Proof.
  intros Hd Hs Hf Hl Hc Hk. unfold reconcile. rewrite reconcile_unfold.
  destruct (fetchPod_world h name (mkWorld sp st [])) as [Hw _].
  rewrite Hf in *. simpl in Hw. subst w1.
  unfold desireSwitch, createPodForObject, called, getSpec, getStatus, issue,
    deref, bind, ret.
  cbn [w_spec w_status w_calls fst snd]. rewrite Hd, Hl.
  cbn [w_spec w_status w_calls fst snd]. rewrite Hs.
  cbn [w_spec w_status w_calls fst snd InstanceState_eqb negb]. rewrite Hc.
  cbn [w_spec w_status w_calls fst snd]. rewrite Hk. reflexivity.
Qed.

(** X14: the cycle that creates the pod.  With the desired state Running,
    CurrentState = Stopped, no live pod fetched, a pod spec built and the
    create accepted, the call asks for the pod spec once and creates once,
    deletes nothing, and leaves Started as it was: the flag is set only by
    a later cycle that finds the pod. *)
Theorem creating_cycle (h : InstanceHandler) (name : string)
    (pod p' : option Pod) (ps : Pod) (sp : InstanceSpec) (st : InstanceStatus)
    (w1 : World) :
  DesireState sp = InstanceStateRunning ->
  CurrentState st = InstanceStateStopped ->
  fetchPod h name (mkWorld sp st []) = (Done (inl pod), w1) ->
  live pod = false ->
  podCreator h (Runtime (WithName name)) = (Some ps, None) ->
  Pods_Create (kubeClient h) (namespace h) (Some ps) = (p', None) ->
  creates (callsOf (reconcile h (Runtime (WithName name)) sp st)) =
    [CreatePodSpec (Runtime (WithName name)); PodsCreate (namespace h) (Some ps)] /\
  deletes (callsOf (reconcile h (Runtime (WithName name)) sp st)) = [] /\
  Started (statusOf (reconcile h (Runtime (WithName name)) sp st)) = Started st.
Proof.
  intros Hd Hs Hf Hl Hc Hk.
  rewrite (reconcile_creates h name pod p' ps sp st w1) by assumption.
  destruct (quiet_syncAndPin h p'
    (mkWorld sp st
       [ListerGet (namespace h) name;
        CreatePodSpec (Runtime (WithName name));
        PodsCreate (namespace h) (Some ps);
        Eventf EventTypeNormal EventReasonStart (Name ps)]))
    as (_ & Q2 & Q3 & Q4).
  unfold callsOf, statusOf. rewrite Q2, Q3, Q4. cbn. auto.
Qed.

Lemma creating_cycle_witness :
  Started (statusOf (reconcile (Sample.noPod Sample.okClient)
    (Runtime (WithName "vol-e")) (Sample.spec InstanceStateRunning "")
    (Sample.status InstanceStateStopped false))) = false.
Proof.
  refine (proj2 (proj2 (creating_cycle (Sample.noPod Sample.okClient) "vol-e"
    None (Some (Sample.pod None PodPending "")) (Sample.pod None PodPending "")
    (Sample.spec InstanceStateRunning "")
    (Sample.status InstanceStateStopped false)
    (snd (fetchPod (Sample.noPod Sample.okClient) "vol-e"
            (mkWorld (Sample.spec InstanceStateRunning "")
               (Sample.status InstanceStateStopped false) [])))
    _ _ _ _ _ _))); reflexivity.
Defined.

Lemma reconcile_stopped_live (h : InstanceHandler) (name : string) (p : Pod)
    (sp : InstanceSpec) (st : InstanceStatus) :
  DesireState sp = InstanceStateStopped ->
  podLive h name p ->
  reconcile h (Runtime (WithName name)) sp st =
  syncAndPin h (Some p)
    (mkWorld sp (mkStatus (CurrentState st) false (IP st) (CurrentImage st) "")
       [ListerGet (namespace h) name; PodsDelete (namespace h) name;
        if isNil (Pods_Delete (kubeClient h) (namespace h) name)
        then Eventf EventTypeNormal EventReasonStop name
        else Eventf EventTypeWarning EventReasonFailedStopping name]).
Proof.
  intros Hd [Hl Hdel]. unfold reconcile.
  rewrite reconcile_unfold, (fetchPod_found h name (Some p)) by assumption.
  unfold desireSwitch, deletePodForObject, getNameFromObj, live, called,
    getSpec, setStarted, setNodeBootID, modifyStatus, issue, bind, ret.
  cbn [w_spec w_status w_calls fst snd]. rewrite Hd.
  cbn [w_spec w_status w_calls fst snd isNil negb andb]. rewrite Hdel.
  cbn [w_spec w_status w_calls fst snd isNil negb andb].
  destruct (Pods_Delete (kubeClient h) (namespace h) name); reflexivity.
Qed.

(** X15: the cycle that stops a running pod.  With the desired state
    Stopped and a fetched pod that is not marked for deletion, in Running
    phase with every container ready, on the node the spec names (or none
    named yet), and a node lookup that succeeds: the delete is issued once
    and Started is cleared, but the projection runs on the pod as fetched,
    so the call ends with CurrentState = Running and with NodeBootID set
    again to the boot ID of the node, not empty. *)
Theorem stopping_running_pod (h : InstanceHandler) (name : string) (p : Pod)
    (n : Node) (sp : InstanceSpec) (st : InstanceStatus) :
  DesireState sp = InstanceStateStopped ->
  podLive h name p ->
  Phase p = PodRunning ->
  allReady (ContainerStatuses p) = true ->
  Nodes_Get (kubeClient h) (NodeName p) = (Some n, None) ->
  NodeID sp = "" \/ NodeID sp = NodeName p ->
  fst (reconcile h (Runtime (WithName name)) sp st) = Done None /\
  deletes (callsOf (reconcile h (Runtime (WithName name)) sp st)) =
    [PodsDelete (namespace h) name] /\
  statusOf (reconcile h (Runtime (WithName name)) sp st) =
    mkStatus InstanceStateRunning false (PodIP p)
      (if (CurrentImage st =? "")%string then EngineImage sp else CurrentImage st)
      (BootID n).
Proof.
  intros Hd Hl Hp Hr Hn Hpin.
  rewrite (reconcile_stopped_live h name p) by assumption.
  rewrite syncAndPin_running; try assumption; try apply Hl;
    [ | rewrite Hn; discriminate ].
  unfold callsOf, statusOf. cbn. rewrite Hn. cbn.
  destruct (Pods_Delete (kubeClient h) (namespace h) name); cbn; auto.
Qed.

Lemma stopping_running_pod_witness :
  NodeBootID (statusOf (reconcile
    (Sample.withPod Sample.okClient (Sample.pod None PodRunning "node-a"))
    (Runtime (WithName "vol-e")) (Sample.spec InstanceStateStopped "node-a")
    (Sample.status InstanceStateRunning true))) = "boot-1".
Proof.
  refine (f_equal NodeBootID (proj2 (proj2 (stopping_running_pod
    (Sample.withPod Sample.okClient (Sample.pod None PodRunning "node-a"))
    "vol-e" (Sample.pod None PodRunning "node-a") (mkNode "boot-1")
    (Sample.spec InstanceStateStopped "node-a")
    (Sample.status InstanceStateRunning true) _ _ _ _ _ _))));
    try reflexivity.
  - split; reflexivity.
  - right. reflexivity.
Defined.

(** ** ReconcileInstanceState: what cannot make it fail *)

Lemma reconcileAndSync_withLogs (h : InstanceHandler)
    (logs : string -> string -> Z -> Request) (obj : Object) (w : World) :
  reconcileAndSync (withLogs h logs) obj w = reconcileAndSync h obj w.
Proof. reflexivity. Qed.

Lemma pinAndDiagnose_withLogs (h : InstanceHandler)
    (logs : string -> string -> Z -> Request) (pod : option Pod) (w : World) :
  fst (pinAndDiagnose (withLogs h logs) pod w) = fst (pinAndDiagnose h pod w) /\
  w_status (snd (pinAndDiagnose (withLogs h logs) pod w)) =
    w_status (snd (pinAndDiagnose h pod w)) /\
  w_spec (snd (pinAndDiagnose (withLogs h logs) pod w)) =
    w_spec (snd (pinAndDiagnose h pod w)).
Proof.
  unfold pinAndDiagnose, getPodLogs, withLogs, setCurrentState, setIP,
    setNodeBootID, setNodeID, modifyStatus, modifySpec, getSpec, getStatus,
    issue, deref, panic, bind, ret.
  cbn.
  destruct (InstanceState_eqb (CurrentState (w_status w)) InstanceStateRunning);
    cbn; auto.
  destruct (InstanceState_eqb (CurrentState (w_status w)) InstanceStateError);
    cbn; auto.
  destruct pod as [p|]; cbn; auto.
  destruct (URLPath (logs _ _ _) =? "")%string;
    destruct (URLPath (Pods_GetLogs _ _ _ _) =? "")%string; cbn;
    try destruct (snd (DoRaw (logs _ _ _)));
    try destruct (snd (DoRaw (Pods_GetLogs _ _ _ _))); cbn; auto.
Qed.

(** X16: the pod log client has no say in the result.  Replace it by any
    other and ReconcileInstanceState returns the same outcome and leaves the
    same status and the same spec: no failure to get the crash log reaches
    the caller or the status. *)
Theorem logs_do_not_matter (h : InstanceHandler)
    (logs : string -> string -> Z -> Request) (obj : Object)
    (sp : InstanceSpec) (st : InstanceStatus) :
  fst (reconcile (withLogs h logs) obj sp st) = fst (reconcile h obj sp st) /\
  statusOf (reconcile (withLogs h logs) obj sp st) =
    statusOf (reconcile h obj sp st) /\
  specOf (reconcile (withLogs h logs) obj sp st) = specOf (reconcile h obj sp st).
Proof.
  unfold reconcile, statusOf, specOf, ReconcileInstanceState, bind.
  rewrite reconcileAndSync_withLogs.
  destruct (reconcileAndSync h obj (mkWorld sp st [])) as [[[pod|e]|] w1];
    cbn; auto.
  apply pinAndDiagnose_withLogs.
Qed.

Lemma desireSwitch_safe (h : InstanceHandler) (obj : Object)
    (ro : RuntimeObject) (pod : option Pod) (w : World) :
  creatorSound h ->
  fst (desireSwitch h obj ro pod w) <> Panic.
Proof.
  intro Hc.
  unfold desireSwitch, createPodForObject, deletePodForObject, getNameFromObj,
    getSpec, getStatus, setStarted, setNodeBootID, modifyStatus, issue, deref,
    panic, bind, ret.
  destruct (DesireState (w_spec w)); cbn; try discriminate.
  - destruct (live pod); cbn; [discriminate|].
    destruct (InstanceState_eqb (CurrentState (w_status w)) InstanceStateStopped);
      cbn; [|discriminate].
    specialize (Hc obj).
    destruct (podCreator h obj) as [[ps|] [e|]]; cbn; try discriminate;
      [ | congruence].
    destruct (Pods_Create (kubeClient h) (namespace h) (Some ps)) as [p' [e|]];
      cbn; discriminate.
  - destruct (live pod); cbn; [|discriminate].
    destruct ro as [name|err]; cbn; [|discriminate].
    destruct (Pods_Delete (kubeClient h) (namespace h) name); cbn; discriminate.
Qed.

Lemma syncAndPin_safe (h : InstanceHandler) (pod : option Pod) (w : World) :
  nodesSound h ->
  fst (syncAndPin h pod w) <> Panic.
Proof.
  intro Hn. destruct pod as [p|]; [|rewrite syncAndPin_nil; discriminate].
  specialize (Hn (NodeName p)).
  unfold syncAndPin. unfold_go. cbn.
  destruct (DeletionTimestamp p); cbn; [discriminate|].
  destruct (Phase p); cbn;
    try (destruct (URLPath _ =? "")%string; cbn;
         try destruct (snd (DoRaw _)); cbn; discriminate);
    try discriminate.
  destruct (allReady (ContainerStatuses p)); cbn; [|discriminate].
  destruct (negb (IP (w_status w) =? PodIP p)%string); cbn;
    destruct (CurrentImage (w_status w) =? "")%string; cbn;
    destruct (Nodes_Get (kubeClient h) (NodeName p)) as [[n|] [e|]]; cbn;
    try congruence;
    destruct (NodeID (w_spec w) =? "")%string; cbn; try discriminate;
    destruct (negb (NodeID (w_spec w) =? NodeName p)%string); cbn; discriminate.
Qed.

(** X17: ReconcileInstanceState dereferences no nil pointer as long as the
    collaborators keep to the Go convention: a pod spec builder and a node
    client that never answer with a nil pointer and a nil error together.
    In particular the pinning step reads the node of the pod only where
    the projection has seen that pod. *)
Theorem reconcile_no_panic (h : InstanceHandler) (obj : Object)
    (sp : InstanceSpec) (st : InstanceStatus) :
  creatorSound h ->
  nodesSound h ->
  fst (reconcile h obj sp st) <> Panic.
Proof.
  intros Hc Hn. unfold reconcile.
  destruct obj as [|[name|err]]; [cbn; discriminate | | cbn; discriminate].
  rewrite reconcile_unfold.
  destruct (fetchPod_world h name (mkWorld sp st [])) as [_ Hp].
  destruct (fetchPod h name (mkWorld sp st [])) as [[[pod|e]|] w1];
    simpl in Hp; [ | discriminate | congruence].
  pose proof (desireSwitch_safe h (Runtime (WithName name)) (WithName name)
                pod w1 Hc) as Hs.
  destruct (desireSwitch h (Runtime (WithName name)) (WithName name) pod w1)
    as [[[pod'|e]|] w2]; simpl in Hs; [ | discriminate | congruence].
  apply syncAndPin_safe. exact Hn.
Qed.

Lemma reconcile_no_panic_witness :
  fst (reconcile (Sample.noPod Sample.noNode) Sample.obj
         (Sample.spec InstanceStateRunning "")
         (Sample.status InstanceStateStopped false)) <> Panic.
Proof.
  apply (reconcile_no_panic (Sample.noPod Sample.noNode) Sample.obj
           (Sample.spec InstanceStateRunning "")
           (Sample.status InstanceStateStopped false)).
  - intro o. simpl. discriminate.
  - intro n. simpl. discriminate.
Defined.

Lemma desireSwitch_error_untouched (h : InstanceHandler) (obj : Object)
    (ro : RuntimeObject) (pod : option Pod) (w : World) (e : error) :
  fst (desireSwitch h obj ro pod w) = Done (inr e) ->
  untouched w (snd (desireSwitch h obj ro pod w)).
Proof.
  unfold untouched, desireSwitch, createPodForObject, deletePodForObject,
    getNameFromObj, getSpec, getStatus, setStarted, setNodeBootID,
    modifyStatus, issue, deref, panic, bind, ret.
  destruct (DesireState (w_spec w)); cbn; auto.
  - destruct (live pod); cbn; [discriminate|].
    destruct (InstanceState_eqb (CurrentState (w_status w)) InstanceStateStopped);
      cbn; [|discriminate].
    destruct (podCreator h obj) as [ps [e1|]]; cbn; auto.
    destruct (Pods_Create (kubeClient h) (namespace h) ps) as [p' [e2|]];
      destruct ps as [pd|]; cbn; auto; discriminate.
  - destruct (live pod); cbn; [|discriminate].
    destruct ro as [name|err]; cbn; auto.
    destruct (Pods_Delete (kubeClient h) (namespace h) name); cbn; discriminate.
Qed.

Lemma pinAndDiagnose_error (h : InstanceHandler) (pod : option Pod)
    (w : World) (e : error) :
  fst (pinAndDiagnose h pod w) = Done (Some e) ->
  exists a b, e = ErrNotPinned a b.
Proof.
  unfold pinAndDiagnose, getPodLogs, setCurrentState, setIP, setNodeBootID,
    setNodeID, modifyStatus, modifySpec, getSpec, getStatus, issue, deref,
    panic, bind, ret.
  destruct (InstanceState_eqb (CurrentState (w_status w)) InstanceStateRunning);
    cbn.
  - destruct (NodeID (w_spec w) =? "")%string; cbn;
      destruct pod as [p|]; cbn; try discriminate.
    destruct (negb (NodeID (w_spec w) =? NodeName p)%string); cbn;
      [|discriminate].
    intro H. injection H as <-. eauto.
  - destruct (InstanceState_eqb (CurrentState (w_status w)) InstanceStateError);
      cbn; [|discriminate].
    destruct pod as [p|]; cbn; [|discriminate].
    destruct (URLPath _ =? "")%string; cbn; [discriminate|].
    destruct (snd (DoRaw _)); cbn; discriminate.
Qed.

(** X18: every error ReconcileInstanceState returns, other than the pin
    violation, is returned with status and spec exactly as they came in:
    a failed fetch, an unknown desired state, a pod spec that could not be
    built and a create that failed all leave no trace in either struct. *)
Theorem error_leaves_status (h : InstanceHandler) (obj : Object)
    (sp : InstanceSpec) (st : InstanceStatus) (e : error) :
  fst (reconcile h obj sp st) = Done (Some e) ->
  (forall a b, e <> ErrNotPinned a b) ->
  statusOf (reconcile h obj sp st) = st /\
  specOf (reconcile h obj sp st) = sp.
Proof.
  unfold reconcile, statusOf, specOf.
  destruct obj as [|[name|err]]; [cbn; auto | | cbn; auto].
  rewrite reconcile_unfold.
  destruct (fetchPod_world h name (mkWorld sp st [])) as [Hw Hp].
  destruct (fetchPod h name (mkWorld sp st [])) as [[[pod|e1]|] w1];
    simpl in Hw, Hp; subst w1; [ | cbn; auto | congruence].
  pose proof (desireSwitch_error_untouched h (Runtime (WithName name))
                (WithName name) pod
                (called (mkWorld sp st []) (ListerGet (namespace h) name)))
    as Hu.
  destruct (desireSwitch h (Runtime (WithName name)) (WithName name) pod
              (called (mkWorld sp st []) (ListerGet (namespace h) name)))
    as [[[pod'|e2]|] w2]; simpl in Hu.
  - intros He Hne. exfalso.
    unfold syncAndPin, bind, ret in He.
    destruct (syncStatusWithPod h pod' w2) as [[[]|] w3]; simpl in He;
      [|discriminate].
    destruct (pinAndDiagnose_error h pod' w3 e He) as (a & b & ->).
    apply (Hne a b). reflexivity.
  - intros _ _. destruct (Hu e2 eq_refl) as [H1 H2]. simpl in *. auto.
  - discriminate.
Qed.

Lemma error_leaves_status_witness :
  statusOf (reconcile (Sample.noPod Cases.failingCreate) Sample.obj
              (Sample.spec InstanceStateRunning "")
              (Sample.status InstanceStateStopped false)) =
  Sample.status InstanceStateStopped false.
Proof.
  refine (proj1 (error_leaves_status (Sample.noPod Cases.failingCreate)
    Sample.obj (Sample.spec InstanceStateRunning "")
    (Sample.status InstanceStateStopped false)
    (APIError false "quota exceeded") _ _)).
  - vm_compute. reflexivity.
  - intros a b. discriminate.
Defined.

(** ** A pod that is being deleted *)

Lemma syncAndPin_deleting (h : InstanceHandler) (p : Pod) (t : Z) (w : World) :
  DeletionTimestamp p = Some t ->
  syncAndPin h (Some p) w =
  (Done None,
   withStatus w (mkStatus InstanceStateStopping (Started (w_status w)) "" ""
                   (NodeBootID (w_status w)))).
Proof.
  intro Hd. unfold syncAndPin, withStatus. unfold_go. rewrite Hd. reflexivity.
Qed.

(** X24: a fetched pod that already carries a deletion timestamp is left
    to finish.  With the desired state Stopped no second delete is issued
    and the status ends as Stopping with Started and NodeBootID cleared;
    with the desired state Running and CurrentState other than Stopped
    nothing is created and the status ends as Stopping with Started and
    NodeBootID as they were.  Either way the call returns nil and its only
    call is the fetch. *)
Theorem deleting_pod_left_alone (h : InstanceHandler) (name : string) (p : Pod)
    (t : Z) (sp : InstanceSpec) (st : InstanceStatus) :
  pLister h (namespace h) name = (Some p, None) ->
  DeletionTimestamp p = Some t ->
  (DesireState sp = InstanceStateStopped ->
   reconcile h (Runtime (WithName name)) sp st =
   (Done None,
    mkWorld sp (mkStatus InstanceStateStopping false "" "" "")
      [ListerGet (namespace h) name])) /\
  (DesireState sp = InstanceStateRunning ->
   CurrentState st <> InstanceStateStopped ->
   reconcile h (Runtime (WithName name)) sp st =
   (Done None,
    mkWorld sp (mkStatus InstanceStateStopping (Started st) "" "" (NodeBootID st))
      [ListerGet (namespace h) name])).
Proof.
  intros Hl Hd.
  assert (Hlive : live (Some p) = false).
  { unfold live. rewrite Hd. reflexivity. }
  split.
  - intro Hs. unfold reconcile.
    rewrite reconcile_unfold, (fetchPod_found h name (Some p)) by assumption.
    rewrite desireSwitch_stopped_idle by assumption.
    rewrite (syncAndPin_deleting h p t) by assumption. reflexivity.
  - intros Hr Hc. unfold reconcile.
    rewrite reconcile_unfold, (fetchPod_found h name (Some p)) by assumption.
    rewrite desireSwitch_running_wait by assumption.
    rewrite (syncAndPin_deleting h p t) by assumption. reflexivity.
Qed.

Lemma deleting_pod_left_alone_witness :
  reconcile (Sample.withPod Sample.failingDelete
               (Sample.pod (Some 7%Z) PodRunning "node-a"))
    (Runtime (WithName "vol-e")) (Sample.spec InstanceStateStopped "node-a")
    (Sample.status InstanceStateRunning true) =
  (Done None,
   mkWorld (Sample.spec InstanceStateStopped "node-a")
     (mkStatus InstanceStateStopping false "" "" "")
     [ListerGet "longhorn" "vol-e"]) /\
  reconcile (Sample.withPod Sample.okClient
               (Sample.pod (Some 7%Z) PodRunning "node-a"))
    (Runtime (WithName "vol-e")) (Sample.spec InstanceStateRunning "node-a")
    (Sample.status InstanceStateStopping false) =
  (Done None,
   mkWorld (Sample.spec InstanceStateRunning "node-a")
     (mkStatus InstanceStateStopping false "" "" "boot-0")
     [ListerGet "longhorn" "vol-e"]).
Proof.
  split.
  - apply (proj1 (deleting_pod_left_alone
      (Sample.withPod Sample.failingDelete
         (Sample.pod (Some 7%Z) PodRunning "node-a"))
      "vol-e" (Sample.pod (Some 7%Z) PodRunning "node-a") 7%Z
      (Sample.spec InstanceStateStopped "node-a")
      (Sample.status InstanceStateRunning true) eq_refl eq_refl)).
    reflexivity.
  - apply (proj2 (deleting_pod_left_alone
      (Sample.withPod Sample.okClient
         (Sample.pod (Some 7%Z) PodRunning "node-a"))
      "vol-e" (Sample.pod (Some 7%Z) PodRunning "node-a") 7%Z
      (Sample.spec InstanceStateRunning "node-a")
      (Sample.status InstanceStateStopping false) eq_refl eq_refl)).
    + reflexivity.
    + simpl. discriminate.
Defined.

(** * Properties of the CSI plugin deployment *)

(** Membership in a list of strings written out. *)
Ltac in_names :=
  intros; cbn in *;
  repeat match goal with
         | H : _ \/ _ |- _ => destruct H as [H|H]
         | H : False |- _ => destruct H
         end;
  subst; simpl; repeat (first [left; reflexivity | right]).

(** Distinctness of strings written out. *)
Ltac distinct_names :=
  repeat (apply NoDup_cons; [cbn; intuition discriminate|]); apply NoDup_nil.

(** X19: the manifest NewPluginDeployment builds is consistent with
    itself, with or without the plugin watcher and whatever the names and
    images passed: every volume mount of every container names a volume of
    the pod, and the selector of the daemon set is the label set of its pod
    template. *)
Theorem plugin_mounts_have_volumes
    (namespace serviceAccount driverRegistrarImage managerImage managerURL : string)
    (watcher : bool) :
  Forall (fun c =>
            incl (csi.mountNames c)
              (csi.volumeNames
                 (csi.NewPluginDeployment namespace serviceAccount
                    driverRegistrarImage managerImage managerURL watcher)))
         (csi.Containers
            (csi.podSpecOf
               (csi.NewPluginDeployment namespace serviceAccount
                  driverRegistrarImage managerImage managerURL watcher))) /\
  csi.Selector_MatchLabels
    (csi.DaemonSet_Spec
       (csi.daemonSet
          (csi.NewPluginDeployment namespace serviceAccount
             driverRegistrarImage managerImage managerURL watcher))) =
  csi.Meta_Labels
    (csi.Template_ObjectMeta
       (csi.Template
          (csi.DaemonSet_Spec
             (csi.daemonSet
                (csi.NewPluginDeployment namespace serviceAccount
                   driverRegistrarImage managerImage managerURL watcher))))).
Proof.
  split; [|reflexivity].
  destruct watcher; cbn;
    repeat first [apply Forall_nil | apply Forall_cons];
    unfold incl; in_names.
Qed.

(** X20: in that manifest the volumes have distinct names, the containers
    have distinct names, and within each container the mount paths are
    distinct and the environment variables have distinct names. *)
Theorem plugin_names_distinct
    (namespace serviceAccount driverRegistrarImage managerImage managerURL : string)
    (watcher : bool) :
  NoDup (csi.volumeNames
           (csi.NewPluginDeployment namespace serviceAccount
              driverRegistrarImage managerImage managerURL watcher)) /\
  NoDup (map csi.Container_Name
           (csi.Containers
              (csi.podSpecOf
                 (csi.NewPluginDeployment namespace serviceAccount
                    driverRegistrarImage managerImage managerURL watcher)))) /\
  Forall (fun c =>
            NoDup (map csi.VolumeMount_MountPath (csi.Container_VolumeMounts c)) /\
            NoDup (map csi.EnvVar_Name (csi.Container_Env c)))
         (csi.Containers
            (csi.podSpecOf
               (csi.NewPluginDeployment namespace serviceAccount
                  driverRegistrarImage managerImage managerURL watcher))).
Proof.
  destruct watcher; cbn;
    (split; [distinct_names | split; [distinct_names|]]);
    repeat first [apply Forall_nil | apply Forall_cons; [split; distinct_names|]].
Qed.





(** X23: the plugin container sees its host directories at their own
    paths, with one exception.  Every volume it mounts other than
    lib-modules is mounted at the host path of the volume; lib-modules is
    the host path /lib-modules mounted, read-only, at /lib/modules. *)
Theorem plugin_host_paths
    (namespace serviceAccount driverRegistrarImage managerImage managerURL : string)
    (watcher : bool) :
  exists plg,
    csi.container
      (csi.NewPluginDeployment namespace serviceAccount
         driverRegistrarImage managerImage managerURL watcher)
      "longhorn-csi-plugin" = Some plg /\
    Forall (fun m =>
              csi.VolumeMount_Name m <> "lib-modules" ->
              csi.hostPathOf
                (csi.NewPluginDeployment namespace serviceAccount
                   driverRegistrarImage managerImage managerURL watcher)
                (csi.VolumeMount_Name m) = Some (csi.VolumeMount_MountPath m))
           (csi.Container_VolumeMounts plg) /\
    csi.hostPathOf
      (csi.NewPluginDeployment namespace serviceAccount
         driverRegistrarImage managerImage managerURL watcher)
      "lib-modules" = Some "/lib-modules" /\
    In (csi.mkVolumeMount "lib-modules" true "/lib/modules" None)
       (csi.Container_VolumeMounts plg).
Proof.
  destruct watcher; cbn; eexists; (split; [reflexivity|]); cbn;
    (split; [|split; [reflexivity|auto 10]]);
    repeat first [apply Forall_nil | apply Forall_cons];
    cbn; intro H; try reflexivity; contradiction H; reflexivity.
Qed.

Lemma plugin_host_paths_witness :
  csi.hostPathOf
    (csi.NewPluginDeployment "longhorn-system" "longhorn-sa"
       csi.DefaultCSIDriverRegistrarImage "rancher/longhorn-manager:v0.3"
       "http://longhorn-backend:9500/v1" false)
    "pods-mount-dir" = Some "/var/lib/kubelet/pods".
Proof.
  destruct (plugin_host_paths "longhorn-system" "longhorn-sa"
              csi.DefaultCSIDriverRegistrarImage "rancher/longhorn-manager:v0.3"
              "http://longhorn-backend:9500/v1" false)
    as (plg & Hplg & Hall & _).
  cbn in Hplg. injection Hplg as <-.
  apply (proj1 (Forall_forall _ _) Hall
           (csi.mkVolumeMount "pods-mount-dir" false "/var/lib/kubelet/pods"
              (Some csi.MountPropagationBidirectional))).
  - cbn. auto.
  - cbn. discriminate.
Defined.
